(** * django-contacts: the company views (contacts/views/company.py)

    A shallow embedding of the five company views (list, detail, create,
    update, delete) together with the parts of the framework they call:
    the paginator, the query dictionary, the object manager lookup and the
    message storage.  Views are computations in a state-and-exception
    monad over the database and the message storage. *)

From Stdlib Require Import ZArith List String Ascii Bool Lia.
From stdpp Require Import gmap strings list fin_maps pretty.

Open Scope string_scope.
Open Scope Z_scope.

(** ** Exceptions and the view monad *)

(** The exception instances the views can meet. *)
Inductive exn : Type :=
  | Http404
  | DoesNotExist
  | MultipleObjectsReturned
  | MultiValueDictKeyError (key : string)
  | EmptyPage
  | PageNotAnInteger
  | ValueError
  | TypeError
  | ValidationError
  | DatabaseError.

(** The classes named in [except] clauses. *)
Inductive exn_class : Type :=
  | cls_Http404
  | cls_DoesNotExist
  | cls_MultipleObjectsReturned
  | cls_KeyError
  | cls_MultiValueDictKeyError
  | cls_InvalidPage
  | cls_EmptyPage
  | cls_PageNotAnInteger
  | cls_ValueError
  | cls_TypeError.

(** [isinstance e c]: the class of [e] is [c] or one of its subclasses.
    [EmptyPage] and [PageNotAnInteger] derive from [InvalidPage];
    [MultiValueDictKeyError] derives from [KeyError]. *)
Definition isinstance (e : exn) (c : exn_class) : bool :=
  match e, c with
  | Http404, cls_Http404 => true
  | DoesNotExist, cls_DoesNotExist => true
  | MultipleObjectsReturned, cls_MultipleObjectsReturned => true
  | MultiValueDictKeyError _, (cls_MultiValueDictKeyError | cls_KeyError) => true
  | EmptyPage, (cls_EmptyPage | cls_InvalidPage) => true
  | PageNotAnInteger, (cls_PageNotAnInteger | cls_InvalidPage) => true
  | ValueError, cls_ValueError => true
  | TypeError, cls_TypeError => true
  | _, _ => false
  end.

Inductive result (A : Type) : Type :=
  | Return (a : A)
  | Raise (e : exn).
Arguments Return {A} a.
Arguments Raise {A} e.

(** Pure code that may raise. *)
Module Exc.
Definition bind {A B} (m : result A) (k : A -> result B) : result B :=
  match m with
  | Return a => k a
  | Raise e => Raise e
  end.

(** [try: m except classes: handler]. *)
Definition try_except {A} (m : result A) (classes : list exn_class)
    (handler : result A) : result A :=
  match m with
  | Return a => Return a
  | Raise e => if existsb (isinstance e) classes then handler else Raise e
  end.
End Exc.

(** ** The data model *)

(** Modelled from the spec: contacts/models.py is absent.  A row of the
    company table: its name, under the automatic integer primary key. *)
Record Company : Type := mkCompany {
  pk : Z;
  name : string
}.

(** Modelled from the spec: contacts/models.py is absent.  A generic
    sub-record (phone number, e-mail address, web site, street address)
    carries a polymorphic owner reference (owner type and owner id) and its
    own text. *)
Record SubRecord : Type := mkSubRecord {
  content_type : string;
  object_id : Z;
  value : string
}.

Record Database : Type := mkDatabase {
  companies : list Company;
  phone_numbers : list SubRecord;
  email_addresses : list SubRecord;
  web_sites : list SubRecord;
  street_addresses : list SubRecord
}.

(** What a request can change: the database and the message storage
    (level, text), most recent last. *)
Record World : Type := mkWorld {
  db : Database;
  message_storage : list (Z * string)
}.

(** Code that reads and writes the world and may raise.  The world is kept
    as it was at the point of the raise. *)
Definition M (A : Type) : Type := World -> result A * World.

#[global] Instance M_ret : MRet M := fun A a w => (Return a, w).
#[global] Instance M_bind : MBind M := fun A B k m w =>
  match m w with
  | (Return a, w') => k a w'
  | (Raise e, w') => (Raise e, w')
  end.

Definition raise {A} (e : exn) : M A := fun w => (Raise e, w).
Definition lift {A} (r : result A) : M A := fun w => (r, w).
Definition get_db : M Database := fun w => (Return (db w), w).
Definition put_db (d : Database) : M unit :=
  fun w => (Return tt, {| db := d; message_storage := message_storage w |}).

(** [try: m except classes: handler] for code with effects. *)
Definition try_except {A} (m : M A) (classes : list exn_class)
    (handler : M A) : M A :=
  fun w =>
    match m w with
    | (Return a, w') => (Return a, w')
    | (Raise e, w') =>
        if existsb (isinstance e) classes then handler w' else (Raise e, w')
    end.

(** ** Requests *)

(** [django.http.QueryDict]: every key holds the list of its values. *)
Abbreviation QueryDict := (gmap string (list string)).

(** What indexing a query dictionary gives: the last value of the key, or
    the empty list when the key holds no value. *)
Inductive qd_item : Type :=
  | ItemStr (s : string)
  | ItemEmptyList.

(** [MultiValueDict.__getitem__]. *)
Definition getitem (d : QueryDict) (key : string) : result qd_item :=
  match d !! key with
  | None => Raise (MultiValueDictKeyError key)
  | Some list_ =>
      match last list_ with
      | Some s => Return (ItemStr s)
      | None => Return ItemEmptyList
      end
  end.

(** [item == text] for an item read from a query dictionary. *)
Definition item_eq (i : qd_item) (text : string) : bool :=
  match i with
  | ItemStr s => String.eqb s text
  | ItemEmptyList => false
  end.

Record User : Type := mkUser {
  has_perm : string -> bool
}.

Record HttpRequest : Type := mkRequest {
  user : User;
  method : string;
  POST : QueryDict
}.

(** ** Object manager: [Company.objects] *)

Definition ascii_upper (a : ascii) : ascii :=
  let n := nat_of_ascii a in
  if (97 <=? n)%nat && (n <=? 122)%nat then ascii_of_nat (n - 32) else a.

Fixpoint upper (s : string) : string :=
  match s with
  | EmptyString => EmptyString
  | String a s' => String (ascii_upper a) (upper s')
  end.

(** The [iexact] lookup: equality of texts up to letter case. *)
Definition iexact (column arg : string) : bool :=
  String.eqb (upper column) (upper arg).

(** [Company.objects.all()]. *)
Definition objects_all : M (list Company) :=
  d ← get_db; mret (companies d).

(** [Company.objects.get(pk__iexact=pk)]: the single matching row;
    [DoesNotExist] when there is none, [MultipleObjectsReturned] when there
    are several. *)
Definition objects_get_pk_iexact (arg : string) : M Company :=
  d ← get_db;
  match List.filter (fun c => iexact (pretty (pk c)) arg) (companies d) with
  | [] => raise DoesNotExist
  | [c] => mret c
  | _ => raise MultipleObjectsReturned
  end.

(** ** What the project supplies around the views *)

(** The form classes of contacts/forms.py that take an instance. *)
Inductive form_kind : Type :=
  | CompanyUpdateForm
  | PhoneNumberFormSet
  | EmailAddressFormSet
  | WebSiteFormSet
  | StreetAddressFormSet.

(** The parts the views call whose code is outside contacts/views: the
    builtin conversion of text to an integer ([None] for a text that is not
    an integer), the model's [get_absolute_url], the URL resolver, and the
    validation and saving of the forms of contacts/forms.py.

    Validating a form that holds an instance reads the posted data, the
    instance and the database and writes to no table.  It gives its
    verdict together with the instance as it leaves it (a model form
    writes the cleaned fields into its instance), or it raises (a formset
    raises [ValidationError] when the posted data lack its management
    form).  Saving gives the instance as it leaves it, or raises; either
    way it gives the database as it is afterwards, whatever it wrote
    before a raise included. *)
Class Project : Type := {
  int_of_text : string -> option Z;
  get_absolute_url : Company -> string;
  reverse : string -> string;
  CompanyCreateForm_is_valid : QueryDict -> Database -> bool;
  CompanyCreateForm_cleaned_name : QueryDict -> string;
  form_is_valid :
    form_kind -> QueryDict -> Company -> Database -> result (bool * Company);
  form_save :
    form_kind -> QueryDict -> Company -> Database -> result Company * Database
}.

(** ** The paginator (django.core.paginator) *)

(** The [page] argument of the list view: the integer default, the text
    captured from the URL, or [None] for an optional group that did not
    match. *)
Inductive page_arg : Type :=
  | PageInt (n : Z)
  | PageText (s : string)
  | PageNone.

(** The builtin [int(number)]. *)
Definition py_int `{Project} (number : page_arg) : result Z :=
  match number with
  | PageInt n => Return n
  | PageText s =>
      match int_of_text s with
      | Some n => Return n
      | None => Raise ValueError
      end
  | PageNone => Raise TypeError
  end.

(** [l[bottom:top]] with Python's treatment of negative and overlong
    bounds. *)
Definition slice_bound (i len : Z) : Z :=
  if i <? 0 then Z.max (i + len) 0 else Z.min i len.

Definition slice {A} (l : list A) (bottom top : Z) : list A :=
  let len := Z.of_nat (length l) in
  let b := slice_bound bottom len in
  let t := slice_bound top len in
  firstn (Z.to_nat (t - b)) (skipn (Z.to_nat b) l).

(** [int(ceil(hits / float(per_page)))]. *)
Definition ceil_div (hits per_page : Z) : Z := - ((- hits) / per_page).

Record Paginator : Type := mkPaginator {
  object_list : list Company;
  per_page : Z;
  orphans : Z;
  allow_empty_first_page : bool
}.

(** [Paginator(object_list, per_page)] with the defaults of the other two
    arguments. *)
Definition Paginator_init (object_list : list Company) (per_page : Z) : Paginator :=
  {| object_list := object_list; per_page := per_page;
     orphans := 0; allow_empty_first_page := true |}.

Definition count (p : Paginator) : Z := Z.of_nat (length (object_list p)).

Definition num_pages (p : Paginator) : Z :=
  if (count p =? 0) && negb (allow_empty_first_page p) then 0
  else
    let hits := Z.max 1 (count p - orphans p) in
    ceil_div hits (per_page p).

Definition validate_number `{Project} (p : Paginator) (number : page_arg) : result Z :=
  Exc.bind
    (Exc.try_except (py_int number) [cls_TypeError; cls_ValueError]
       (Raise PageNotAnInteger))
    (fun number =>
       if number <? 1 then Raise EmptyPage
       else if num_pages p <? number then
         if (number =? 1) && allow_empty_first_page p then Return number
         else Raise EmptyPage
       else Return number).

Record Page : Type := mkPage {
  page_object_list : list Company;
  number : Z;
  paginator : Paginator
}.

Definition page `{Project} (p : Paginator) (number : page_arg) : result Page :=
  Exc.bind (validate_number p number) (fun number =>
    let bottom := (number - 1) * per_page p in
    let top := bottom + per_page p in
    let top := if count p <=? top + orphans p then count p else top in
    Return {| page_object_list := slice (object_list p) bottom top;
              number := number; paginator := p |}).

Definition has_next (pg : Page) : bool := number pg <? num_pages (paginator pg).
Definition has_previous (pg : Page) : bool := 1 <? number pg.
Definition has_other_pages (pg : Page) : bool := has_previous pg || has_next pg.

Definition next_page_number `{Project} (pg : Page) : result Z :=
  validate_number (paginator pg) (PageInt (number pg + 1)).
Definition previous_page_number `{Project} (pg : Page) : result Z :=
  validate_number (paginator pg) (PageInt (number pg - 1)).

Definition start_index (pg : Page) : Z :=
  if count (paginator pg) =? 0 then 0
  else per_page (paginator pg) * (number pg - 1) + 1.

Definition end_index (pg : Page) : Z :=
  if number pg =? num_pages (paginator pg) then count (paginator pg)
  else number pg * per_page (paginator pg).

(** ** Forms (contacts/forms.py over django.forms) *)

(** A form object: its class and the data it is bound to, if any.  The
    five forms of the update view all hold the one [company] object of the
    view, so the instance is passed to each call rather than copied into
    the form. *)
Record Form : Type := mkForm {
  kind : form_kind;
  data : option QueryDict
}.

(** [form.is_valid()] on the form [f] holding [instance]: the verdict and
    the instance as validation leaves it, or the exception validation
    raises.  An unbound form is never valid. *)
Definition is_valid `{Project} (f : Form) (instance : Company)
    : M (bool * Company) :=
  d ← get_db;
  match data f with
  | Some posted => lift (form_is_valid (kind f) posted instance d)
  | None => mret (false, instance)
  end.

(** [... and form.is_valid()]: the form is validated only when everything
    before it was valid. *)
Definition and_valid `{Project} (before : bool * Company) (f : Form)
    : M (bool * Company) :=
  if fst before then is_valid f (snd before) else mret before.

(** [form.save()] on a bound form: writes to the database and gives the
    instance as the form leaves it, or raises with the database as it is
    at that point.  The views save bound forms only; an unbound form
    changes nothing. *)
Definition save `{Project} (f : Form) (instance : Company) : M Company :=
  fun w =>
    match data f with
    | Some posted =>
        let '(outcome, d') := form_save (kind f) posted instance (db w) in
        (outcome, {| db := d'; message_storage := message_storage w |})
    | None => (Return instance, w)
    end.

(** [CompanyCreateForm(data)], a model form without an instance. *)
Record CompanyCreateForm : Type := mkCompanyCreateForm {
  create_data : option QueryDict
}.

Definition create_is_valid `{Project} (f : CompanyCreateForm) : M bool :=
  d ← get_db;
  match create_data f with
  | Some posted => mret (CompanyCreateForm_is_valid posted d)
  | None => mret false
  end.

(** The key the database gives to the next inserted row. *)
Definition next_pk (rows : list Company) : Z :=
  1 + fold_right (fun c m => Z.max (pk c) m) 0 rows.

(** Modelled from the spec: contacts/forms.py is absent.  Saving a valid
    creation form persists the new record: one row, built from the cleaned
    data, is inserted under a new key, and the saved instance is
    returned. *)
Definition create_save `{Project} (f : CompanyCreateForm) : M Company :=
  d ← get_db;
  let posted := default ∅ (create_data f) in
  let c := {| pk := next_pk (companies d);
              name := CompanyCreateForm_cleaned_name posted |} in
  _ ← put_db {| companies := companies d ++ [c];
                phone_numbers := phone_numbers d;
                email_addresses := email_addresses d;
                web_sites := web_sites d;
                street_addresses := street_addresses d |};
  mret c.

(** Modelled from the spec: contacts/models.py is absent.  [company.delete()]
    removes the row of that key, and the deletion cascades to the
    sub-records the company owns. *)
Definition Model_delete (c : Company) : M unit :=
  d ← get_db;
  let kept (r : SubRecord) :=
    negb (String.eqb (content_type r) "company" && (object_id r =? pk c)) in
  put_db {| companies := List.filter (fun r => negb (pk r =? pk c)) (companies d);
            phone_numbers := List.filter kept (phone_numbers d);
            email_addresses := List.filter kept (email_addresses d);
            web_sites := List.filter kept (web_sites d);
            street_addresses := List.filter kept (street_addresses d) |}.

(** ** Messages and responses *)

(** [django.contrib.messages.constants.SUCCESS]. *)
Definition SUCCESS : Z := 25.

(** [messages.success(request, msg)]. *)
Definition messages_success (request : HttpRequest) (msg : string) : M unit :=
  fun w => (Return tt, {| db := db w;
                          message_storage := message_storage w ++ [(SUCCESS, msg)] |}).

(** The values the views put in a template context. *)
Inductive pyval : Type :=
  | VNone
  | VBool (b : bool)
  | VInt (n : Z)
  | VObjectList (l : list Company)
  | VObject (c : Company)
  | VForm (f : Form)
  | VCreateForm (f : CompanyCreateForm).

(** Response objects. *)
Inductive HttpResponse : Type :=
  | HttpResponseForbidden
  | HttpResponseRedirect (redirect_to : string)
  | TemplateResponse (template : string) (context : gmap string pyval).

(** What a view hands back to the handler: a response object, or (in one
    branch of [create]) the class [HttpResponseServerError] itself, which
    was never called and so is no response object. *)
Inductive returned : Type :=
  | Instance (r : HttpResponse)
  | HttpResponseServerError.

(** [render_to_response(template, kwvars, ...)]. *)
Definition render_to_response (template : string) (kwvars : gmap string pyval)
    : M returned :=
  mret (Instance (TemplateResponse template kwvars)).

(** ** The views (contacts/views/company.py) *)

Module company.
Section views.
Context `{Project}.

(** [detail(request, pk, slug=None, template=...)]. *)
Definition detail (request : HttpRequest) (pk : string) (slug : option string)
    (template : string) : M returned :=
  company ← try_except (objects_get_pk_iexact pk)
            [cls_DoesNotExist] (raise Http404);
  let kwvars : gmap string pyval := {[ "object" := VObject company ]} in
  render_to_response template kwvars.

(** [create(request, template=...)]. *)
Definition create (request : HttpRequest) (template : string) : M returned :=
  let user := user request in
  if negb (has_perm user "contacts.add_company") then
    mret (Instance HttpResponseForbidden)
  else
  let render :=
    let kwvars : gmap string pyval :=
      {[ "form" := VCreateForm {| create_data := None |} ]} in
    render_to_response template kwvars in
  if String.eqb (method request) "POST" then
    let company_form := {| create_data := Some (POST request) |} in
    valid ← create_is_valid company_form;
    if valid : bool then
      c ← create_save company_form;
      let msg := "Company added" in
      _ ← messages_success request msg;
      mret (Instance (HttpResponseRedirect (get_absolute_url c)))
    else
      mret HttpResponseServerError
  else render.

(** [update(request, pk, slug=None, template=...)]. *)
Definition update (request : HttpRequest) (pk : string) (slug : option string)
    (template : string) : M returned :=
  let user := user request in
  if negb (has_perm user "contacts.change_company") then
    mret (Instance HttpResponseForbidden)
  else
  company ← try_except (objects_get_pk_iexact pk)
              [cls_DoesNotExist] (raise Http404);
  let render (form phone_formset email_formset website_formset
              address_formset : Form) (company : Company) :=
    let kwvars : gmap string pyval :=
      <[ "form" := VForm form ]>
      (<[ "phone_formset" := VForm phone_formset ]>
      (<[ "email_formset" := VForm email_formset ]>
      (<[ "website_formset" := VForm website_formset ]>
      (<[ "address_formset" := VForm address_formset ]>
      (<[ "object" := VObject company ]> ∅))))) in
    render_to_response template kwvars in
  if String.eqb (method request) "POST" then
    let form := {| kind := CompanyUpdateForm; data := Some (POST request) |} in
    let phone_formset := {| kind := PhoneNumberFormSet; data := Some (POST request) |} in
    let email_formset := {| kind := EmailAddressFormSet; data := Some (POST request) |} in
    let website_formset := {| kind := WebSiteFormSet; data := Some (POST request) |} in
    let address_formset := {| kind := StreetAddressFormSet; data := Some (POST request) |} in
    valid ← is_valid form company;
    valid ← and_valid valid phone_formset;
    valid ← and_valid valid email_formset;
    valid ← and_valid valid website_formset;
    valid ← and_valid valid address_formset;
    let company := snd (valid : bool * Company) in
    if fst valid then
      company ← save form company;
      company ← save phone_formset company;
      company ← save email_formset company;
      company ← save website_formset company;
      company ← save address_formset company;
      let msg := "Company updated" in
      _ ← messages_success request msg;
      mret (Instance (HttpResponseRedirect (get_absolute_url company)))
    else
      render form phone_formset email_formset website_formset
        address_formset company
  else
    let form := {| kind := CompanyUpdateForm; data := None |} in
    let phone_formset := {| kind := PhoneNumberFormSet; data := None |} in
    let email_formset := {| kind := EmailAddressFormSet; data := None |} in
    let website_formset := {| kind := WebSiteFormSet; data := None |} in
    let address_formset := {| kind := StreetAddressFormSet; data := None |} in
    render form phone_formset email_formset website_formset
      address_formset company.

(** [delete(request, pk, slug=None, template=...)]. *)
Definition delete (request : HttpRequest) (pk : string) (slug : option string)
    (template : string) : M returned :=
  let user := user request in
  if negb (has_perm user "contacts.delete_company") then
    mret (Instance HttpResponseForbidden)
  else
  company ← try_except (objects_get_pk_iexact pk)
              [cls_DoesNotExist] (raise Http404);
  if String.eqb (method request) "POST" then
    let new_data := POST request in
    confirmation ← lift (getitem new_data "delete_company");
    if item_eq confirmation "Yes" then
      _ ← Model_delete company;
      let msg := "Company deleted" in
      _ ← messages_success request msg;
      mret (Instance (HttpResponseRedirect (reverse "contacts_company_list")))
    else
      mret (Instance (HttpResponseRedirect (get_absolute_url company)))
  else
    let kwvars : gmap string pyval := {[ "object" := VObject company ]} in
    render_to_response template kwvars.

(** [list(request, page=1, template=...)]. *)
Definition list (request : HttpRequest) (page_ : page_arg) (template : string)
    : M returned :=
  company_list ← objects_all;
  let paginator := Paginator_init company_list 20 in
  companies ← try_except (lift (page paginator page_))
              [cls_EmptyPage; cls_InvalidPage]
              (lift (page paginator (PageInt (num_pages paginator))));
  let kwvars : gmap string pyval :=
  <[ "object_list" := VObjectList (page_object_list companies) ]>
  (<[ "has_next" := VBool (has_next companies) ]>
  (<[ "has_previous" := VBool (has_previous companies) ]>
  (<[ "has_other_pages" := VBool (has_other_pages companies) ]>
  (<[ "start_index" := VInt (start_index companies) ]>
  (<[ "end_index" := VInt (end_index companies) ]> ∅))))) in
  kwvars ← try_except
           (n ← lift (previous_page_number companies);
            mret (<[ "previous_page_number" := VInt n ]> kwvars))
           [cls_EmptyPage; cls_InvalidPage]
           (mret (<[ "previous_page_number" := VNone ]> kwvars));
  kwvars ← try_except
           (n ← lift (next_page_number companies);
            mret (<[ "next_page_number" := VInt n ]> kwvars))
           [cls_EmptyPage; cls_InvalidPage]
           (mret (<[ "next_page_number" := VNone ]> kwvars));
  render_to_response template kwvars.
End views.
End company.

(** ** A concrete project to run the views on *)

Module demo.
Fixpoint digits (s : string) (acc : Z) : option Z :=
  match s with
  | EmptyString => Some acc
  | String a s' =>
      let n := Z.of_nat (nat_of_ascii a) in
      if (48 <=? n) && (n <=? 57) then digits s' (10 * acc + (n - 48))
      else None
  end.

(** Decimal texts without sign or blanks; everything else is refused. *)
Definition parse_int (s : string) : option Z :=
  match s with
  | EmptyString => None
  | _ => digits s 0
  end.

Definition field (posted : QueryDict) (key : string) : string :=
  match posted !! key with
  | Some values => default "" (last values)
  | None => ""
  end.

Definition nonempty (s : string) : bool := negb (String.eqb s "").

Definition set_name (c : Company) (d : Database) : Database :=
  {| companies :=
       map (fun r => if pk r =? pk c then c else r) (companies d);
     phone_numbers := phone_numbers d;
     email_addresses := email_addresses d;
     web_sites := web_sites d;
     street_addresses := street_addresses d |}.

Definition owned (c : Company) (text : string) : SubRecord :=
  {| content_type := "company"; object_id := pk c; value := text |}.

(** The text field a formset edits. *)
Definition formset_field (k : form_kind) : string :=
  match k with
  | CompanyUpdateForm => "name"
  | PhoneNumberFormSet => "phone"
  | EmailAddressFormSet => "email"
  | WebSiteFormSet => "website"
  | StreetAddressFormSet => "address"
  end.

(** The main form needs a name and writes it into the instance; a formset
    raises without its management form and otherwise needs its one
    field. *)
Definition valid (k : form_kind) (posted : QueryDict) (c : Company)
    (d : Database) : result (bool * Company) :=
  match k with
  | CompanyUpdateForm =>
      if nonempty (field posted "name")
      then Return (true, {| pk := pk c; name := field posted "name" |})
      else Return (false, c)
  | _ =>
      match posted !! (formset_field k ++ "-TOTAL_FORMS") with
      | None => Raise ValidationError
      | Some _ => Return (nonempty (field posted (formset_field k)), c)
      end
  end.

Definition add_sub_record (k : form_kind) (r : SubRecord) (d : Database)
    : Database :=
  {| companies := companies d;
     phone_numbers :=
       match k with PhoneNumberFormSet => phone_numbers d ++ [r] | _ => phone_numbers d end;
     email_addresses :=
       match k with EmailAddressFormSet => email_addresses d ++ [r] | _ => email_addresses d end;
     web_sites :=
       match k with WebSiteFormSet => web_sites d ++ [r] | _ => web_sites d end;
     street_addresses :=
       match k with StreetAddressFormSet => street_addresses d ++ [r] | _ => street_addresses d end |}.

(** The main form stores the row of its instance; a formset adds one
    sub-record owned by the instance. *)
Definition persist (k : form_kind) (posted : QueryDict) (c : Company)
    (d : Database) : result Company * Database :=
  match k with
  | CompanyUpdateForm => (Return c, set_name c d)
  | _ => (Return c, add_sub_record k (owned c (field posted (formset_field k))) d)
  end.

(** As [persist], but the database refuses every e-mail address. *)
Definition persist_flaky (k : form_kind) (posted : QueryDict) (c : Company)
    (d : Database) : result Company * Database :=
  match k with
  | EmailAddressFormSet => (Raise DatabaseError, d)
  | _ => persist k posted c d
  end.

Definition project : Project :=
  {| int_of_text := parse_int;
     get_absolute_url := fun c => "/companies/" ++ pretty (pk c) ++ "/";
     reverse := fun view_name => "/companies/";
     CompanyCreateForm_is_valid := fun posted d => nonempty (field posted "name");
     CompanyCreateForm_cleaned_name := fun posted => field posted "name";
     form_is_valid := valid;
     form_save := persist |}.

Definition flaky : Project :=
  {| int_of_text := parse_int;
     get_absolute_url := fun c => "/companies/" ++ pretty (pk c) ++ "/";
     reverse := fun view_name => "/companies/";
     CompanyCreateForm_is_valid := fun posted d => nonempty (field posted "name");
     CompanyCreateForm_cleaned_name := fun posted => field posted "name";
     form_is_valid := valid;
     form_save := persist_flaky |}.

(** The management-form fields of the four formsets. *)
Definition management : list (string * list string) :=
  [("phone-TOTAL_FORMS", ["1"]); ("email-TOTAL_FORMS", ["1"]);
   ("website-TOTAL_FORMS", ["1"]); ("address-TOTAL_FORMS", ["1"])].

Definition acme : Company := {| pk := 1; name := "Acme" |}.
Definition bolt : Company := {| pk := 2; name := "Bolt" |}.

Definition database : Database :=
  {| companies := [acme; bolt];
     phone_numbers := [owned acme "555-0100"];
     email_addresses := [];
     web_sites := [];
     street_addresses := [] |}.

Definition world : World := {| db := database; message_storage := [] |}.

Definition staff : User := {| has_perm := fun _ => true |}.
Definition visitor : User := {| has_perm := fun _ => false |}.

Definition post (u : User) (fields : list (string * list string)) : HttpRequest :=
  {| user := u; method := "POST"; POST := list_to_map fields |}.
Definition get (u : User) : HttpRequest :=
  {| user := u; method := "GET"; POST := ∅ |}.
End demo.

(** ** Notions the statements use *)

(** Some stored company has a key that matches the argument. *)
Definition stored (arg : string) (d : Database) : bool :=
  existsb (fun c => iexact (pretty (pk c)) arg) (companies d).

(** The five forms of the update view, in the order the view validates and
    saves them. *)
Definition update_forms : list form_kind :=
  [CompanyUpdateForm; PhoneNumberFormSet; EmailAddressFormSet; WebSiteFormSet;
   StreetAddressFormSet].

(** [f1.is_valid() and f2.is_valid() and ...] over the forms [kinds], all
    holding the one instance: the verdict and the instance as the
    validations leave it, or the exception of the first validation that
    raises.  A form is validated only when those before it were valid. *)
Fixpoint validated_in_sequence `{Project} (posted : QueryDict)
    (kinds : list form_kind) (c : Company) (d : Database)
    : result (bool * Company) :=
  match kinds with
  | [] => Return (true, c)
  | k :: rest =>
      match form_is_valid k posted c d with
      | Return (true, c') => validated_in_sequence posted rest c' d
      | Return (false, c') => Return (false, c')
      | Raise e => Raise e
      end
  end.

(** The forms [kinds] saved one after the other: the instance after the
    last save, or the exception of the first save that raises, and the
    database as the saves that ran left it. *)
Fixpoint saved_in_sequence `{Project} (posted : QueryDict)
    (kinds : list form_kind) (c : Company) (d : Database)
    : result Company * Database :=
  match kinds with
  | [] => (Return c, d)
  | k :: rest =>
      match form_save k posted c d with
      | (Return c', d') => saved_in_sequence posted rest c' d'
      | (Raise e, d') => (Raise e, d')
      end
  end.

(** The page object of a page number in range. *)
Definition page_at (rows : list Company) (n : Z) : Page :=
  let P := Paginator_init rows 20 in
  {| page_object_list :=
       slice rows ((n - 1) * 20) (if count P <=? n * 20 then count P else n * 20);
     number := n;
     paginator := P |}.

(** The context the list view builds from a page object and the two
    neighbouring page numbers. *)
Definition list_context (pg : Page) (previous next : pyval) : gmap string pyval :=
  <[ "next_page_number" := next ]>
  (<[ "previous_page_number" := previous ]>
  (<[ "object_list" := VObjectList (page_object_list pg) ]>
  (<[ "has_next" := VBool (has_next pg) ]>
  (<[ "has_previous" := VBool (has_previous pg) ]>
  (<[ "has_other_pages" := VBool (has_other_pages pg) ]>
  (<[ "start_index" := VInt (start_index pg) ]>
  (<[ "end_index" := VInt (end_index pg) ]> ∅))))))).

(** The primary keys of the company table are pairwise distinct. *)
Definition distinct_keys (d : Database) : Prop := List.NoDup (map pk (companies d)).

(** The records a response shows: the [object_list] of its context. *)
Definition shown (out : result returned * World) : list Company :=
  match fst out with
  | Return (Instance (TemplateResponse _ context)) =>
      match context !! "object_list" with
      | Some (VObjectList l) => l
      | _ => []
      end
  | _ => []
  end.

(** The page numbers [1 .. n]. *)
Definition page_numbers (n : Z) : list Z := map Z.of_nat (seq 1 (Z.to_nat n)).

(** The context of the update page: the five forms, bound to [bound], and
    the company. *)
Definition update_context (bound : option QueryDict) (c : Company)
    : gmap string pyval :=
  <[ "form" := VForm {| kind := CompanyUpdateForm; data := bound |} ]>
  (<[ "phone_formset" := VForm {| kind := PhoneNumberFormSet; data := bound |} ]>
  (<[ "email_formset" := VForm {| kind := EmailAddressFormSet; data := bound |} ]>
  (<[ "website_formset" := VForm {| kind := WebSiteFormSet; data := bound |} ]>
  (<[ "address_formset" := VForm {| kind := StreetAddressFormSet; data := bound |} ]>
  (<[ "object" := VObject c ]> ∅))))).

(** What the try block around the lookup makes of an exception. *)
Definition lookup_exn (e : exn) : exn :=
  if isinstance e cls_DoesNotExist then Http404 else e.

(** The value a view returned is a redirect. *)
Definition is_redirect (value : returned) : bool :=
  match value with
  | Instance (HttpResponseRedirect _) => true
  | _ => false
  end.

(** ** Sample data for running the views *)

Module sample.
(** Forty-five companies: three pages of twenty, twenty and five. *)
Definition rows : list Company :=
  map (fun i => {| pk := Z.of_nat i; name := "Company " ++ pretty (Z.of_nat i) |})
    (seq 1 45).

Definition world : World :=
  {| db := {| companies := rows; phone_numbers := []; email_addresses := [];
              web_sites := []; street_addresses := [] |};
     message_storage := [] |}.

Definition context_of (out : result returned * World) : gmap string pyval :=
  match fst out with
  | Return (Instance (TemplateResponse _ context)) => context
  | _ => ∅
  end.

Definition shown_pks (out : result returned * World) : list Z :=
  match context_of out !! "object_list" with
  | Some (VObjectList l) => map pk l
  | _ => []
  end.
End sample.

(** * Properties *)

(** ** Lookup by primary key *)

Ltac unfold_monad :=
  unfold mbind, M_bind, mret, M_ret, try_except, raise, lift, get_db, put_db;
  cbv beta.

Lemma filter_none {A} (f : A -> bool) (l : list A) :
  existsb f l = false -> List.filter f l = [].
Proof.
  induction l as [|a l IH]; simpl; [reflexivity|].
  destruct (f a); simpl; [discriminate|exact IH].
Qed.

Lemma filter_some {A} (f : A -> bool) (l : list A) (a : A) (rest : list A) :
  List.filter f l = a :: rest -> existsb f l = true.
Proof.
  intros E. destruct (existsb f l) eqn:X; [reflexivity|].
  rewrite (filter_none _ _ X) in E. discriminate.
Qed.

Lemma get_missing (arg : string) (w : World) :
  stored arg (db w) = false ->
  objects_get_pk_iexact arg w = (Raise DoesNotExist, w).
Proof.
  intros E. unfold objects_get_pk_iexact. unfold_monad.
  unfold stored in E. rewrite (filter_none _ _ E). reflexivity.
Qed.

Lemma get_found (arg : string) (w w' : World) (c : Company) :
  objects_get_pk_iexact arg w = (Return c, w') ->
  w' = w /\
  List.filter (fun r => iexact (pretty (pk r)) arg) (companies (db w)) = [c].
Proof.
  unfold objects_get_pk_iexact. unfold_monad.
  destruct (List.filter _ _) as [|a [|b rest]]; intros E; inversion E; auto.
Qed.

Lemma get_found_stored (arg : string) (w w' : World) (c : Company) :
  objects_get_pk_iexact arg w = (Return c, w') -> stored arg (db w) = true.
Proof.
  intros E. apply get_found in E as [_ E].
  unfold stored. eapply filter_some. exact E.
Qed.

(** ** Detail *)

Section detail_facts.
Context `{Project}.

(** C9. The detail view gives the same result and leaves the same world
    for any two slugs, absent ones included: the slug plays no part in
    the lookup or in the response. *)
Theorem detail_ignores_slug (request : HttpRequest) (pk : string)
    (slug1 slug2 : option string) (template : string) (w : World) :
  company.detail request pk slug1 template w
  = company.detail request pk slug2 template w.
Proof. reflexivity. Qed.

(** C5. When no stored company matches the primary key, the detail view
    raises the not-found signal, and so do the update and delete views
    for a user who holds the permission; the world is left as it was. *)
Theorem missing_pk_is_not_found (request : HttpRequest) (pk : string)
    (slug : option string) (template : string) (w : World) :
  stored pk (db w) = false ->
  company.detail request pk slug template w = (Raise Http404, w)
  /\ (has_perm (user request) "contacts.change_company" = true ->
      company.update request pk slug template w = (Raise Http404, w))
  /\ (has_perm (user request) "contacts.delete_company" = true ->
      company.delete request pk slug template w = (Raise Http404, w)).
Proof.
  intros Hmiss. pose proof (get_missing pk w Hmiss) as Hget.
  repeat split.
  - unfold company.detail. unfold_monad. rewrite Hget. reflexivity.
  - intros Hperm. unfold company.update. rewrite Hperm. cbn [negb].
    unfold_monad. rewrite Hget. reflexivity.
  - intros Hperm. unfold company.delete. rewrite Hperm. cbn [negb].
    unfold_monad. rewrite Hget. reflexivity.
Qed.
End detail_facts.

Lemma missing_pk_is_not_found_witness :
  stored "7" (db demo.world) = false
  /\ @company.detail (demo.get demo.visitor) "7" None "detail.html" demo.world
     = (Raise Http404, demo.world)
  /\ @company.update demo.project (demo.get demo.staff) "7" None "update.html"
       demo.world = (Raise Http404, demo.world)
  /\ @company.delete demo.project (demo.get demo.staff) "7" None "delete.html"
       demo.world = (Raise Http404, demo.world).
Proof.
  assert (Hmiss : stored "7" (db demo.world) = false) by reflexivity.
  destruct (@missing_pk_is_not_found demo.project (demo.get demo.staff) "7" None
              "update.html" demo.world Hmiss) as (_ & Hu & _).
  destruct (@missing_pk_is_not_found demo.project (demo.get demo.staff) "7" None
              "delete.html" demo.world Hmiss) as (_ & _ & Hd).
  destruct (@missing_pk_is_not_found demo.project (demo.get demo.visitor) "7" None
              "detail.html" demo.world Hmiss) as (Hdet & _ & _).
  split; [exact Hmiss|]. split; [exact Hdet|].
  split; [apply Hu; reflexivity | apply Hd; reflexivity].
Defined.

(** ** Permissions *)

Section permission_facts.
Context `{Project}.

(** C6. A user without the permission of the view gets the forbidden
    response from the create, the update and the delete view, for any
    method, key and posted data, and the world (database and message
    storage) is exactly as before. *)
Theorem no_permission_is_forbidden (request : HttpRequest) (pk : string)
    (slug : option string) (template : string) (w : World) :
  (has_perm (user request) "contacts.add_company" = false ->
   company.create request template w = (Return (Instance HttpResponseForbidden), w))
  /\ (has_perm (user request) "contacts.change_company" = false ->
      company.update request pk slug template w
      = (Return (Instance HttpResponseForbidden), w))
  /\ (has_perm (user request) "contacts.delete_company" = false ->
      company.delete request pk slug template w
      = (Return (Instance HttpResponseForbidden), w)).
Proof.
  repeat split; intros Hperm.
  - unfold company.create. rewrite Hperm. reflexivity.
  - unfold company.update. rewrite Hperm. reflexivity.
  - unfold company.delete. rewrite Hperm. reflexivity.
Qed.
End permission_facts.

Lemma no_permission_is_forbidden_witness :
  @company.create demo.project
    (demo.post demo.visitor [("name", ["Zed"])]) "create.html" demo.world
  = (Return (Instance HttpResponseForbidden), demo.world)
  /\ @company.update demo.project
       (demo.post demo.visitor [("name", ["Zed"])]) "1" None "update.html" demo.world
     = (Return (Instance HttpResponseForbidden), demo.world)
  /\ @company.delete demo.project
       (demo.post demo.visitor [("delete_company", ["Yes"])]) "1" None "delete.html"
       demo.world
     = (Return (Instance HttpResponseForbidden), demo.world).
Proof.
  destruct (@no_permission_is_forbidden demo.project
              (demo.post demo.visitor [("name", ["Zed"])]) "1" None "create.html"
              demo.world) as (Hc & _ & _).
  destruct (@no_permission_is_forbidden demo.project
              (demo.post demo.visitor [("name", ["Zed"])]) "1" None "update.html"
              demo.world) as (_ & Hu & _).
  destruct (@no_permission_is_forbidden demo.project
              (demo.post demo.visitor [("delete_company", ["Yes"])]) "1" None
              "delete.html" demo.world) as (_ & _ & Hd).
  split; [apply Hc; reflexivity|].
  split; [apply Hu; reflexivity | apply Hd; reflexivity].
Defined.

(** ** Create *)

Lemma next_pk_above (rows : list Company) (r : Company) :
  In r rows -> pk r < next_pk rows.
Proof.
  unfold next_pk. induction rows as [|a rows IH]; simpl; [tauto|].
  intros [->|Hin]; [lia|]. specialize (IH Hin). lia.
Qed.

Section create_facts.
Context `{Project}.

(** C4. A POST to the create view by a permitted user whose form does
    not validate returns the class [HttpResponseServerError] itself: no
    response object at all, in particular not the form rendered again.
    Nothing is written. *)
Theorem create_invalid_returns_class (request : HttpRequest)
    (template : string) (w : World) :
  has_perm (user request) "contacts.add_company" = true ->
  method request = "POST" ->
  CompanyCreateForm_is_valid (POST request) (db w) = false ->
  company.create request template w = (Return HttpResponseServerError, w)
  /\ forall response : HttpResponse,
       fst (company.create request template w) <> Return (Instance response).
Proof.
  intros Hperm Hpost Hbad.
  assert (E : company.create request template w
              = (Return HttpResponseServerError, w)).
  { unfold company.create. rewrite Hperm, Hpost. cbn [negb].
    rewrite String.eqb_refl.
    unfold create_is_valid. unfold_monad. cbn [create_data].
    rewrite Hbad. reflexivity. }
  split; [exact E|]. intros response. rewrite E. discriminate.
Qed.

(** C7. A POST to the create view by a permitted user whose form
    validates adds exactly one company row, under a key above every
    stored key, leaves the stored rows and the sub-record tables as they
    were, records the success message and redirects to the canonical URL
    of the new company. *)
Theorem create_valid_adds_one (request : HttpRequest) (template : string)
    (w : World) :
  has_perm (user request) "contacts.add_company" = true ->
  method request = "POST" ->
  CompanyCreateForm_is_valid (POST request) (db w) = true ->
  exists (c : Company) (w' : World),
    company.create request template w
    = (Return (Instance (HttpResponseRedirect (get_absolute_url c))), w')
    /\ companies (db w') = (companies (db w) ++ [c])%list
    /\ length (companies (db w')) = S (length (companies (db w)))
    /\ (forall r, In r (companies (db w)) -> pk r < pk c)
    /\ phone_numbers (db w') = phone_numbers (db w)
    /\ email_addresses (db w') = email_addresses (db w)
    /\ web_sites (db w') = web_sites (db w)
    /\ street_addresses (db w') = street_addresses (db w)
    /\ message_storage w' = (message_storage w ++ [(SUCCESS, "Company added")])%list.
Proof.
  intros Hperm Hpost Hok.
  unfold company.create. rewrite Hperm, Hpost. cbn [negb].
  rewrite String.eqb_refl.
  unfold create_is_valid, create_save, messages_success. unfold_monad.
  cbn [create_data db message_storage]. rewrite Hok.
  eexists _, _. split; [reflexivity|]. cbn.
  repeat split; try reflexivity.
  - rewrite length_app. simpl. lia.
  - intros r Hin. apply next_pk_above. exact Hin.
Qed.
End create_facts.

Lemma create_invalid_returns_class_witness :
  @company.create demo.project
    (demo.post demo.staff [("name", [""])]) "create.html" demo.world
  = (Return HttpResponseServerError, demo.world).
Proof.
  apply (@create_invalid_returns_class demo.project
           (demo.post demo.staff [("name", [""])]) "create.html" demo.world);
    reflexivity.
Defined.

Lemma create_valid_adds_one_witness :
  exists (c : Company) (w' : World),
    @company.create demo.project
      (demo.post demo.staff [("name", ["Zed"])]) "create.html" demo.world
    = (Return (Instance (HttpResponseRedirect (@get_absolute_url demo.project c))), w')
    /\ companies (db w') = (companies (db demo.world) ++ [c])%list.
Proof.
  destruct (@create_valid_adds_one demo.project
              (demo.post demo.staff [("name", ["Zed"])]) "create.html" demo.world)
    as (c & w' & E & Hrows & _); try reflexivity.
  exists c, w'. split; assumption.
Defined.

(** ** Delete *)

Lemma filter_swap {A} (f g : A -> bool) (l : list A) :
  List.filter f (List.filter g l) = List.filter g (List.filter f l).
Proof.
  induction l as [|a l IH]; simpl; [reflexivity|].
  destruct (g a) eqn:Eg, (f a) eqn:Ef; simpl; rewrite ?Eg, ?Ef, IH; reflexivity.
Qed.

Lemma existsb_filter_none {A} (f : A -> bool) (l : list A) :
  List.filter f l = [] -> existsb f l = false.
Proof.
  induction l as [|a l IH]; simpl; [reflexivity|].
  destruct (f a); simpl; [discriminate|exact IH].
Qed.

(** After [company.delete()] no stored row matches the key the company was
    found under. *)
Lemma deleted_not_stored (arg : string) (w : World) (c : Company) :
  objects_get_pk_iexact arg w = (Return c, w) ->
  stored arg (db (snd (Model_delete c w))) = false.
Proof.
  intros Hget. apply get_found in Hget as [_ Hrows].
  unfold Model_delete, stored. unfold_monad. cbn [snd db companies].
  apply existsb_filter_none. rewrite filter_swap, Hrows.
  simpl. rewrite Z.eqb_refl. reflexivity.
Qed.

Lemma getitem_present (posted : QueryDict) (key : string) (values : list string) :
  posted !! key = Some values ->
  exists item, getitem posted key = Return item
    /\ (item_eq item "Yes" = true <-> last values = Some "Yes").
Proof.
  intros E. unfold getitem. rewrite E.
  destruct (last values) as [s|].
  - exists (ItemStr s). split; [reflexivity|]. simpl.
    rewrite String.eqb_eq. split; [intros ->; reflexivity|congruence].
  - exists ItemEmptyList. split; [reflexivity|]. simpl.
    split; discriminate.
Qed.

Section delete_facts.
Context `{Project}.

(** A POST to the delete view by a permitted user for a stored key, by
    what indexing the posted data gives. *)
Lemma delete_post (request : HttpRequest) (pk_ : string)
    (slug : option string) (template : string) (w : World) (c : Company) :
  has_perm (user request) "contacts.delete_company" = true ->
  method request = "POST" ->
  objects_get_pk_iexact pk_ w = (Return c, w) ->
  company.delete request pk_ slug template w
  = match getitem (POST request) "delete_company" with
    | Raise e => (Raise e, w)
    | Return item =>
        if item_eq item "Yes" then
          (Return (Instance (HttpResponseRedirect (reverse "contacts_company_list"))),
           {| db := db (snd (Model_delete c w));
              message_storage :=
                (message_storage w ++ [(SUCCESS, "Company deleted")])%list |})
        else (Return (Instance (HttpResponseRedirect (get_absolute_url c))), w)
    end.
Proof.
  intros Hperm Hpost Hget.
  unfold company.delete. rewrite Hperm, Hpost. cbn [negb].
  rewrite String.eqb_refl. unfold_monad. rewrite Hget.
  destruct (getitem (POST request) "delete_company") as [item|e];
    [|reflexivity].
  destruct (item_eq item "Yes"); reflexivity.
Qed.

(** C10. A POST to the delete view by a permitted user for a stored key,
    with no [delete_company] key in the posted data, raises the
    key-lookup error of the query dictionary (a [KeyError]) and returns
    no response; the world is left as it was. *)
Theorem delete_without_field_raises (request : HttpRequest) (pk_ : string)
    (slug : option string) (template : string) (w : World) (c : Company) :
  has_perm (user request) "contacts.delete_company" = true ->
  method request = "POST" ->
  objects_get_pk_iexact pk_ w = (Return c, w) ->
  POST request !! "delete_company" = None ->
  company.delete request pk_ slug template w
  = (Raise (MultiValueDictKeyError "delete_company"), w)
  /\ isinstance (MultiValueDictKeyError "delete_company") cls_KeyError = true
  /\ forall value : returned,
       fst (company.delete request pk_ slug template w) <> Return value.
Proof.
  intros Hperm Hpost Hget Hnone.
  rewrite (delete_post _ _ _ _ _ _ Hperm Hpost Hget).
  unfold getitem. rewrite Hnone.
  split; [reflexivity|]. split; [reflexivity|]. discriminate.
Qed.

(** C2. A POST to the delete view by a permitted user for a stored key.
    When the posted [delete_company] field reads exactly ["Yes"] the
    company row is removed (no stored row matches the key any more, the
    other rows stay), the success message is recorded and the view
    redirects to the list view.  When the field holds any other value
    the world is unchanged and the view redirects to the company's own
    URL.  And, whatever was posted, the record is gone afterwards
    exactly when the field is there and reads ["Yes"]. *)
Theorem delete_iff_confirmed (request : HttpRequest) (pk_ : string)
    (slug : option string) (template : string) (w : World) (c : Company) :
  has_perm (user request) "contacts.delete_company" = true ->
  method request = "POST" ->
  objects_get_pk_iexact pk_ w = (Return c, w) ->
  let out := company.delete request pk_ slug template w in
  let field := POST request !! "delete_company" in
  (forall values, field = Some values -> last values = Some "Yes" ->
     fst out = Return (Instance (HttpResponseRedirect (reverse "contacts_company_list")))
     /\ companies (db (snd out))
        = List.filter (fun r => negb (pk r =? pk c)) (companies (db w))
     /\ stored pk_ (db (snd out)) = false
     /\ message_storage (snd out)
        = (message_storage w ++ [(SUCCESS, "Company deleted")])%list)
  /\ (forall values, field = Some values -> last values <> Some "Yes" ->
        out = (Return (Instance (HttpResponseRedirect (get_absolute_url c))), w))
  /\ (stored pk_ (db (snd out)) = false
      <-> exists values, field = Some values /\ last values = Some "Yes").
Proof.
  intros Hperm Hpost Hget out field.
  pose proof (deleted_not_stored _ _ _ Hget) as Hgone.
  pose proof (get_found_stored _ _ _ _ Hget) as Hthere.
  pose proof (delete_post request pk_ slug template w c Hperm Hpost Hget) as Hout.
  fold out in Hout.
  assert (Hyes : forall values, field = Some values -> last values = Some "Yes" ->
            out = (Return (Instance (HttpResponseRedirect
                             (reverse "contacts_company_list"))),
                   {| db := db (snd (Model_delete c w));
                      message_storage :=
                        (message_storage w ++ [(SUCCESS, "Company deleted")])%list |})).
  { intros values Hf Hy.
    destruct (getitem_present _ _ _ Hf) as (item & Hitem & Hiff).
    rewrite Hout, Hitem. apply Hiff in Hy. rewrite Hy. reflexivity. }
  assert (Hno : forall values, field = Some values -> last values <> Some "Yes" ->
            out = (Return (Instance (HttpResponseRedirect (get_absolute_url c))), w)).
  { intros values Hf Hn.
    destruct (getitem_present _ _ _ Hf) as (item & Hitem & Hiff).
    rewrite Hout, Hitem. destruct (item_eq item "Yes"); [|reflexivity].
    exfalso. apply Hn, Hiff. reflexivity. }
  split; [|split].
  - intros values Hf Hy. rewrite (Hyes values Hf Hy).
    cbn [fst snd db message_storage]. repeat split; auto.
  - exact Hno.
  - split.
    + intros Hfalse. destruct field as [values|] eqn:Ef.
      * exists values. split; [reflexivity|].
        destruct (decide (last values = Some "Yes")) as [Hy|Hn]; [exact Hy|].
        rewrite (Hno values eq_refl Hn) in Hfalse. cbn [snd] in Hfalse. congruence.
      * rewrite Hout in Hfalse. unfold getitem in Hfalse. fold field in Hfalse.
        rewrite Ef in Hfalse. cbn [snd] in Hfalse. congruence.
    + intros (values & Hf & Hy). rewrite (Hyes values Hf Hy). exact Hgone.
Qed.
End delete_facts.

Lemma delete_without_field_raises_witness :
  @company.delete demo.project (demo.post demo.staff [("other", ["Yes"])])
    "1" None "delete.html" demo.world
  = (Raise (MultiValueDictKeyError "delete_company"), demo.world).
Proof.
  apply (@delete_without_field_raises demo.project
           (demo.post demo.staff [("other", ["Yes"])]) "1" None "delete.html"
           demo.world demo.acme); vm_compute; reflexivity.
Defined.

Lemma delete_iff_confirmed_witness :
  stored "1" (db (snd (@company.delete demo.project
                         (demo.post demo.staff [("delete_company", ["Yes"])])
                         "1" None "delete.html" demo.world))) = false
  /\ @company.delete demo.project
       (demo.post demo.staff [("delete_company", ["yes"])])
       "1" None "delete.html" demo.world
     = (Return (Instance (HttpResponseRedirect "/companies/1/")), demo.world).
Proof.
  pose proof (@delete_iff_confirmed demo.project
                (demo.post demo.staff [("delete_company", ["Yes"])]) "1" None
                "delete.html" demo.world demo.acme eq_refl eq_refl eq_refl)
    as (Hyes & _ & _).
  pose proof (@delete_iff_confirmed demo.project
                (demo.post demo.staff [("delete_company", ["yes"])]) "1" None
                "delete.html" demo.world demo.acme eq_refl eq_refl eq_refl)
    as (_ & Hno & _).
  split.
  - apply (Hyes ["Yes"]); vm_compute; reflexivity.
  - apply (Hno ["yes"]); [vm_compute; reflexivity|]. discriminate.
Defined.

(** ** Update *)

Section update_facts.
Context `{Project}.

(** The update view for a permitted user and a stored key, branch by
    branch. *)
Lemma update_found (request : HttpRequest) (pk_ : string) (slug : option string)
    (template : string) (w : World) (c : Company) :
  has_perm (user request) "contacts.change_company" = true ->
  objects_get_pk_iexact pk_ w = (Return c, w) ->
  company.update request pk_ slug template w
  = if String.eqb (method request) "POST" then
      match validated_in_sequence (POST request) update_forms c (db w) with
      | Raise e => (Raise e, w)
      | Return (false, c1) =>
          (Return (Instance (TemplateResponse template
                     (update_context (Some (POST request)) c1))), w)
      | Return (true, c1) =>
          match saved_in_sequence (POST request) update_forms c1 (db w) with
          | (Return c2, d2) =>
              (Return (Instance (HttpResponseRedirect (get_absolute_url c2))),
               {| db := d2;
                  message_storage :=
                    message_storage w ++ [(SUCCESS, "Company updated")] |})
          | (Raise e, d2) =>
              (Raise e, {| db := d2; message_storage := message_storage w |})
          end
      end
    else
      (Return (Instance (TemplateResponse template (update_context None c))), w).
Proof.
  intros Hperm Hget. unfold company.update. rewrite Hperm. cbn [negb].
  unfold_monad. rewrite Hget.
  destruct (String.eqb (method request) "POST"); [|reflexivity].
  unfold and_valid, update_forms. cbn [validated_in_sequence].
  repeat (unfold is_valid; unfold_monad; cbn [data kind fst snd];
          match goal with
          | |- context [form_is_valid ?k ?p ?i ?d] =>
              destruct (form_is_valid k p i d) as [[[|] ?]|?]
          end;
          cbn [fst snd]; try reflexivity).
  unfold save, messages_success. cbn [saved_in_sequence].
  repeat (cbn [data kind db message_storage];
          match goal with
          | |- context [form_save ?k ?p ?i ?d] =>
              destruct (form_save k p i d) as [[?|?] ?]
          end;
          cbn [db message_storage]; try reflexivity).
Qed.

End update_facts.


(** ** Pagination *)

Section paginator_facts.
Context `{Project}.
Variable rows : list Company.

Let P := Paginator_init rows 20.

Lemma count_init : count P = Z.of_nat (length rows).
Proof. reflexivity. Qed.

Lemma num_pages_init : num_pages P = ceil_div (Z.max 1 (count P)) 20.
Proof.
  unfold num_pages. cbn [P Paginator_init allow_empty_first_page orphans per_page negb].
  rewrite andb_false_r, Z.sub_0_r. reflexivity.
Qed.

Lemma ceil_div_bounds (hits : Z) :
  20 * (ceil_div hits 20 - 1) < hits <= 20 * ceil_div hits 20.
Proof.
  unfold ceil_div.
  pose proof (Z.div_mod (- hits) 20 ltac:(lia)).
  pose proof (Z.mod_pos_bound (- hits) 20 ltac:(lia)).
  lia.
Qed.

(** There is always a last page, and it is the one that holds the last
    record. *)
Lemma num_pages_bounds :
  1 <= num_pages P
  /\ 20 * (num_pages P - 1) < Z.max 1 (count P) <= 20 * num_pages P.
Proof.
  rewrite num_pages_init.
  pose proof (ceil_div_bounds (Z.max 1 (count P))). lia.
Qed.

Lemma validate_number_int (page_ : page_arg) (n : Z) :
  py_int page_ = Return n ->
  validate_number P page_
  = if (1 <=? n) && (n <=? num_pages P) then Return n else Raise EmptyPage.
Proof.
  intros E. unfold validate_number. rewrite E. cbn [Exc.try_except Exc.bind].
  pose proof num_pages_bounds as [Hone _].
  destruct (n <? 1) eqn:E1; [|destruct (num_pages P <? n) eqn:E2].
  - replace (1 <=? n) with false by lia. reflexivity.
  - replace (1 <=? n) with true by lia. replace (n <=? num_pages P) with false by lia.
    replace (n =? 1) with false by lia. reflexivity.
  - replace (1 <=? n) with true by lia. replace (n <=? num_pages P) with true by lia.
    reflexivity.
Qed.

Lemma validate_number_text (page_ : page_arg) (e : exn) :
  py_int page_ = Raise e ->
  validate_number P page_ = Raise PageNotAnInteger.
Proof.
  intros E. unfold validate_number. rewrite E.
  destruct page_ as [n|s|]; cbn [py_int] in E.
  - discriminate.
  - destruct (int_of_text s); [discriminate|]. inversion E. reflexivity.
  - inversion E. reflexivity.
Qed.

Lemma page_int (page_ : page_arg) (n : Z) :
  py_int page_ = Return n -> 1 <= n <= num_pages P ->
  page P page_ = Return (page_at rows n).
Proof.
  intros E Hn. unfold page. rewrite (validate_number_int _ _ E).
  replace (1 <=? n) with true by lia. replace (n <=? num_pages P) with true by lia.
  cbn [andb Exc.bind P Paginator_init per_page orphans object_list].
  unfold page_at.
  replace ((n - 1) * 20 + 20 + 0) with (n * 20) by lia.
  replace ((n - 1) * 20 + 20) with (n * 20) by lia. reflexivity.
Qed.

Lemma page_out_of_range (page_ : page_arg) (n : Z) :
  py_int page_ = Return n -> n < 1 \/ num_pages P < n ->
  page P page_ = Raise EmptyPage.
Proof.
  intros E Hn. unfold page. rewrite (validate_number_int _ _ E).
  replace ((1 <=? n) && (n <=? num_pages P)) with false by lia. reflexivity.
Qed.

Lemma page_not_an_integer (page_ : page_arg) (e : exn) :
  py_int page_ = Raise e -> page P page_ = Raise PageNotAnInteger.
Proof.
  intros E. unfold page. rewrite (validate_number_text _ _ E). reflexivity.
Qed.

Lemma slice_in_range (b t : Z) :
  0 <= b <= t -> t <= Z.of_nat (length rows) ->
  slice rows b t = firstn (Z.to_nat (t - b)) (skipn (Z.to_nat b) rows).
Proof.
  intros Hb Ht. unfold slice, slice_bound.
  replace (b <? 0) with false by lia. replace (t <? 0) with false by lia.
  rewrite !Z.min_l by lia. reflexivity.
Qed.

(** The records of page [n] are those at the positions
    [20 * (n - 1) + 1 .. min (20 * n) count], counted from one. *)
Lemma page_at_records (n : Z) :
  1 <= n <= num_pages P ->
  page_object_list (page_at rows n)
  = firstn (Z.to_nat (Z.min (20 * n) (count P) - 20 * (n - 1)))
      (skipn (Z.to_nat (20 * (n - 1))) rows).
Proof.
  intros Hn. pose proof num_pages_bounds as [_ Hlast].
  pose proof count_init as Hc. cbn [page_at page_object_list]. fold P.
  destruct (count P <=? n * 20) eqn:E.
  - destruct (Z.eq_dec (count P) 0) as [Hz|Hz].
    + assert (rows = []) as -> by (destruct rows; [reflexivity|simpl in *; lia]).
      unfold slice. rewrite !skipn_nil, !firstn_nil. reflexivity.
    + rewrite slice_in_range by lia.
      rewrite Z.min_r by lia. do 2 f_equal; lia.
  - rewrite slice_in_range by lia.
    rewrite Z.min_l by lia. do 2 f_equal; lia.
Qed.
End paginator_facts.

(** ** The list view *)

Section list_facts.
Context `{Project}.

Lemma neighbours_of_page (rows : list Company) (n : Z) :
  1 <= n <= num_pages (Paginator_init rows 20) ->
  previous_page_number (page_at rows n)
  = (if n =? 1 then Raise EmptyPage else Return (n - 1))
  /\ next_page_number (page_at rows n)
     = (if n =? num_pages (Paginator_init rows 20) then Raise EmptyPage
        else Return (n + 1)).
Proof.
  intros Hn. unfold previous_page_number, next_page_number.
  cbn [page_at number paginator].
  rewrite (validate_number_int rows (PageInt (n - 1)) (n - 1) eq_refl).
  rewrite (validate_number_int rows (PageInt (n + 1)) (n + 1) eq_refl).
  split.
  - destruct (n =? 1) eqn:E.
    + replace (1 <=? n - 1) with false by lia. reflexivity.
    + replace (1 <=? n - 1) with true by lia.
      replace (n - 1 <=? num_pages (Paginator_init rows 20)) with true by lia.
      reflexivity.
  - destruct (n =? num_pages (Paginator_init rows 20)) eqn:E.
    + replace (n + 1 <=? num_pages (Paginator_init rows 20)) with false by lia.
      rewrite andb_false_r. reflexivity.
    + replace (1 <=? n + 1) with true by lia.
      replace (n + 1 <=? num_pages (Paginator_init rows 20)) with true by lia.
      reflexivity.
Qed.

(** The list view on a page number in range. *)
Lemma list_in_range (request : HttpRequest) (page_ : page_arg)
    (template : string) (w : World) (n : Z) :
  py_int page_ = Return n ->
  1 <= n <= num_pages (Paginator_init (companies (db w)) 20) ->
  company.list request page_ template w
  = (Return (Instance (TemplateResponse template
       (list_context (page_at (companies (db w)) n)
          (if n =? 1 then VNone else VInt (n - 1))
          (if n =? num_pages (Paginator_init (companies (db w)) 20) then VNone
           else VInt (n + 1))))), w).
Proof.
  intros E Hn. unfold company.list, objects_all, render_to_response.
  unfold_monad. rewrite (page_int _ _ _ E Hn).
  destruct (neighbours_of_page _ _ Hn) as [-> ->].
  unfold list_context.
  destruct (n =? 1), (n =? num_pages (Paginator_init (companies (db w)) 20));
    reflexivity.
Qed.

(** The list view on a page argument the paginator refuses answers as on
    the number of the last page. *)
Lemma list_falls_back (request : HttpRequest) (page_ : page_arg)
    (template : string) (w : World) (e : exn) :
  page (Paginator_init (companies (db w)) 20) page_ = Raise e ->
  isinstance e cls_InvalidPage = true ->
  company.list request page_ template w
  = company.list request
      (PageInt (num_pages (Paginator_init (companies (db w)) 20))) template w.
Proof.
  intros E Hcaught.
  pose proof (num_pages_bounds (companies (db w))) as [Hone _].
  unfold company.list, objects_all. unfold_monad. rewrite E.
  rewrite (page_int _ (PageInt (num_pages (Paginator_init (companies (db w)) 20)))
             _ eq_refl) by lia.
  cbn [existsb]. rewrite Hcaught, orb_true_r. reflexivity.
Qed.
End list_facts.

Lemma list_context_lookup (pg : Page) (previous next : pyval) :
  let context := list_context pg previous next in
  context !! "object_list" = Some (VObjectList (page_object_list pg))
  /\ context !! "has_next" = Some (VBool (has_next pg))
  /\ context !! "has_previous" = Some (VBool (has_previous pg))
  /\ context !! "start_index" = Some (VInt (start_index pg))
  /\ context !! "end_index" = Some (VInt (end_index pg))
  /\ context !! "previous_page_number" = Some previous
  /\ context !! "next_page_number" = Some next.
Proof.
  unfold list_context. cbv zeta.
  repeat split;
    repeat (rewrite lookup_insert_ne by discriminate);
    apply lookup_insert_eq.
Qed.

Lemma last_page_records (rows : list Company) :
  let P := Paginator_init rows 20 in
  page_object_list (page_at rows (num_pages P))
  = skipn (Z.to_nat (20 * (num_pages P - 1))) rows.
Proof.
  cbv zeta. pose proof (num_pages_bounds rows) as [Hone Hlast].
  pose proof (count_init rows) as Hc.
  rewrite page_at_records by lia.
  apply firstn_all2. rewrite length_skipn. lia.
Qed.

Section list_claims.
Context `{Project}.

(** C3. For a page argument that is an integer below one, an integer
    beyond the last page, or no integer at all (a text that does not
    read as one, or [None]), the list view
    raises nothing: it renders the template, and the records in the
    context are those of the last page (everything after the first
    [20 * (num_pages - 1)] companies), the very response of the last
    page number.  The world is left as it was. *)
Theorem list_bad_page_gives_last_page (request : HttpRequest)
    (page_ : page_arg) (template : string) (w : World) :
  let P := Paginator_init (companies (db w)) 20 in
  (exists n, py_int page_ = Return n /\ (n <= 0 \/ num_pages P < n))
  \/ (exists e, py_int page_ = Raise e) ->
  exists context,
    company.list request page_ template w
    = (Return (Instance (TemplateResponse template context)), w)
    /\ context !! "object_list"
       = Some (VObjectList
                 (skipn (Z.to_nat (20 * (num_pages P - 1))) (companies (db w))))
    /\ company.list request page_ template w
       = company.list request (PageInt (num_pages P)) template w.
Proof.
  intros P Hbad.
  pose proof (num_pages_bounds (companies (db w))) as [Hone _]. fold P in Hone.
  assert (Hback : company.list request page_ template w
                  = company.list request (PageInt (num_pages P)) template w).
  { destruct Hbad as [(n & E & Hn) | (e & E)].
    - eapply list_falls_back.
      + apply (page_out_of_range _ _ n E). fold P. lia.
      + reflexivity.
    - eapply list_falls_back.
      + apply (page_not_an_integer _ _ _ E).
      + reflexivity. }
  rewrite Hback.
  rewrite (list_in_range request (PageInt (num_pages P)) template w
             (num_pages P) eq_refl) by (fold P; lia).
  eexists. split; [reflexivity|]. split; [|reflexivity].
  etransitivity; [apply list_context_lookup|].
  rewrite last_page_records. reflexivity.
Qed.

(** C8. For a page number in range the list view renders a context in
    which: the records shown are exactly those at the positions
    [start_index .. end_index] of the full list, counted from one (both
    indices are zero and nothing is shown when there is no company at
    all); [has_next] holds exactly when the page is not the last and
    [has_previous] exactly when it is not the first; and each of
    [previous_page_number] and [next_page_number] is the neighbouring
    number when that page exists and null when it does not. *)
Theorem list_valid_page_context (request : HttpRequest) (page_ : page_arg)
    (template : string) (w : World) (n : Z) :
  let rows := companies (db w) in
  let P := Paginator_init rows 20 in
  py_int page_ = Return n ->
  1 <= n <= num_pages P ->
  exists context shown first last_,
    company.list request page_ template w
    = (Return (Instance (TemplateResponse template context)), w)
    /\ context !! "object_list" = Some (VObjectList shown)
    /\ context !! "start_index" = Some (VInt first)
    /\ context !! "end_index" = Some (VInt last_)
    /\ shown = firstn (Z.to_nat (last_ - first + 1))
                 (skipn (Z.to_nat (first - 1)) rows)
    /\ (rows = [] -> first = 0 /\ last_ = 0 /\ shown = [])
    /\ (rows <> [] ->
        first = 20 * (n - 1) + 1 /\ 1 <= first <= last_ /\ last_ <= count P
        /\ Z.of_nat (length shown) = last_ - first + 1)
    /\ context !! "has_next" = Some (VBool (n <? num_pages P))
    /\ context !! "has_previous" = Some (VBool (1 <? n))
    /\ context !! "previous_page_number"
       = Some (if (1 <=? n - 1) && (n - 1 <=? num_pages P) then VInt (n - 1)
               else VNone)
    /\ context !! "next_page_number"
       = Some (if (1 <=? n + 1) && (n + 1 <=? num_pages P) then VInt (n + 1)
               else VNone).
Proof.
  intros rows P E Hn.
  pose proof (num_pages_bounds rows) as [Hone Hlast]. fold P in Hone, Hlast.
  pose proof (count_init rows) as Hc. fold P in Hc.
  pose proof (page_at_records rows n Hn) as Hshown. fold P in Hshown.
  rewrite (list_in_range request page_ template w n E Hn). fold rows P.
  set (previous := if n =? 1 then VNone else VInt (n - 1)).
  set (next := if n =? num_pages P then VNone else VInt (n + 1)).
  destruct (list_context_lookup (page_at rows n) previous next)
    as (Hl & Hnext & Hprev & Hfirst & Hlast_ & Hp & Hq).
  exists (list_context (page_at rows n) previous next),
    (page_object_list (page_at rows n)),
    (start_index (page_at rows n)), (end_index (page_at rows n)).
  assert (Hstart : start_index (page_at rows n)
                   = if count P =? 0 then 0 else 20 * (n - 1) + 1).
  { unfold start_index. cbn [page_at paginator number]. fold P.
    destruct (count P =? 0); [reflexivity|]. cbn [P Paginator_init per_page]. lia. }
  assert (Hend : end_index (page_at rows n)
                 = if n =? num_pages P then count P else 20 * n).
  { unfold end_index. cbn [page_at paginator number]. fold P.
    destruct (n =? num_pages P); [reflexivity|]. cbn [P Paginator_init per_page]. lia. }
  split; [reflexivity|]. split; [exact Hl|]. split; [exact Hfirst|].
  split; [exact Hlast_|].
  assert (Hslice : page_object_list (page_at rows n)
                   = firstn (Z.to_nat (end_index (page_at rows n)
                                       - start_index (page_at rows n) + 1))
                       (skipn (Z.to_nat (start_index (page_at rows n) - 1)) rows)).
  { rewrite Hshown, Hstart, Hend.
    destruct (count P =? 0) eqn:E0.
    - assert (rows = []) as -> by (destruct rows; [reflexivity|simpl in *; lia]).
      rewrite !skipn_nil, !firstn_nil. reflexivity.
    - destruct (n =? num_pages P) eqn:E1.
      + rewrite Z.min_r by lia. do 2 f_equal; lia.
      + rewrite Z.min_l by lia. do 2 f_equal; lia. }
  split; [exact Hslice|].
  split; [|split].
  - intros Hnil. rewrite Hstart, Hend, Hshown.
    assert (count P = 0) as Hz by (rewrite Hc, Hnil; reflexivity).
    rewrite Hz in *. replace (n =? num_pages P) with true by lia.
    rewrite Hnil, skipn_nil, firstn_nil. auto.
  - intros Hrows.
    assert (0 < count P) as Hpos by (destruct rows; [congruence|simpl in *; lia]).
    rewrite Hslice, length_firstn, length_skipn, Hstart, Hend.
    replace (count P =? 0) with false by lia.
    destruct (n =? num_pages P) eqn:E1; lia.
  - split; [exact Hnext|]. split; [exact Hprev|].
    split.
    + rewrite Hp. subst previous. f_equal.
      destruct (n =? 1) eqn:E1.
      * replace (1 <=? n - 1) with false by lia. reflexivity.
      * replace (1 <=? n - 1) with true by lia.
        replace (n - 1 <=? num_pages P) with true by lia. reflexivity.
    + rewrite Hq. subst next. f_equal.
      destruct (n =? num_pages P) eqn:E1.
      * replace (n + 1 <=? num_pages P) with false by lia.
        rewrite andb_false_r. reflexivity.
      * replace (1 <=? n + 1) with true by lia.
        replace (n + 1 <=? num_pages P) with true by lia. reflexivity.
Qed.
End list_claims.

Lemma list_bad_page_gives_last_page_witness :
  @company.list demo.project (demo.get demo.visitor) (PageText "0") "list.html"
    demo.world
  = @company.list demo.project (demo.get demo.visitor) (PageInt 1) "list.html"
      demo.world
  /\ @company.list demo.project (demo.get demo.visitor) (PageInt 5) "list.html"
       demo.world
     = @company.list demo.project (demo.get demo.visitor) (PageInt 1) "list.html"
         demo.world
  /\ @company.list demo.project (demo.get demo.visitor) (PageText "abc") "list.html"
       demo.world
     = @company.list demo.project (demo.get demo.visitor) (PageInt 1) "list.html"
         demo.world
  /\ @company.list demo.project (demo.get demo.visitor) PageNone "list.html"
       demo.world
     = @company.list demo.project (demo.get demo.visitor) (PageInt 1) "list.html"
         demo.world.
Proof.
  destruct (@list_bad_page_gives_last_page demo.project (demo.get demo.visitor)
              (PageText "0") "list.html" demo.world) as (_ & _ & _ & E0).
  { left. exists 0. split; [reflexivity|]. left. lia. }
  destruct (@list_bad_page_gives_last_page demo.project (demo.get demo.visitor)
              (PageInt 5) "list.html" demo.world) as (_ & _ & _ & E5).
  { left. exists 5. split; [reflexivity|]. right. vm_compute. reflexivity. }
  destruct (@list_bad_page_gives_last_page demo.project (demo.get demo.visitor)
              (PageText "abc") "list.html" demo.world) as (_ & _ & _ & Et).
  { right. exists ValueError. reflexivity. }
  destruct (@list_bad_page_gives_last_page demo.project (demo.get demo.visitor)
              PageNone "list.html" demo.world) as (_ & _ & _ & En).
  { right. exists TypeError. reflexivity. }
  split; [exact E0|]. split; [exact E5|]. split; [exact Et|exact En].
Defined.

Lemma list_valid_page_context_witness :
  exists context,
    @company.list demo.project (demo.get demo.visitor) (PageText "1") "list.html"
      demo.world
    = (Return (Instance (TemplateResponse "list.html" context)), demo.world)
    /\ context !! "previous_page_number" = Some VNone
    /\ context !! "next_page_number" = Some VNone
    /\ context !! "has_next" = Some (VBool false).
Proof.
  destruct (@list_valid_page_context demo.project (demo.get demo.visitor)
              (PageText "1") "list.html" demo.world 1)
    as (context & shown & first & last_ & E & _ & _ & _ & _ & _ & _ & Hn & _ & Hp & Hq).
  { reflexivity. }
  { vm_compute. split; discriminate. }
  exists context. split; [exact E|]. split; [exact Hp|]. split; [exact Hq|exact Hn].
Defined.

(** ** The views run on sample data *)

Example sample_page_two_indices :
  let out := @company.list demo.project (demo.get demo.visitor) (PageText "2")
               "list.html" sample.world in
  sample.context_of out !! "start_index" = Some (VInt 21)
  /\ sample.context_of out !! "end_index" = Some (VInt 40)
  /\ sample.context_of out !! "previous_page_number" = Some (VInt 1)
  /\ sample.context_of out !! "next_page_number" = Some (VInt 3)
  /\ sample.shown_pks out = map Z.of_nat (seq 21 20).
Proof. vm_compute. repeat split. Qed.

Example sample_page_three_is_last :
  let out := @company.list demo.project (demo.get demo.visitor) (PageInt 3)
               "list.html" sample.world in
  sample.context_of out !! "start_index" = Some (VInt 41)
  /\ sample.context_of out !! "end_index" = Some (VInt 45)
  /\ sample.context_of out !! "has_next" = Some (VBool false)
  /\ sample.context_of out !! "next_page_number" = Some VNone
  /\ sample.shown_pks out = [41; 42; 43; 44; 45].
Proof. vm_compute. repeat split. Qed.

Example sample_page_nine_falls_back :
  sample.shown_pks (@company.list demo.project (demo.get demo.visitor) (PageText "9")
               "list.html" sample.world)
  = [41; 42; 43; 44; 45].
Proof. vm_compute. reflexivity. Qed.

Example sample_detail_matches_key_text :
  fst (@company.detail (demo.get demo.visitor) "12" (Some "any-slug")
         "detail.html" sample.world)
  = Return (Instance (TemplateResponse "detail.html"
      {[ "object" := VObject {| pk := 12; name := "Company 12" |} ]})).
Proof. vm_compute. reflexivity. Qed.

(** * Further properties of the views *)

(** ** Keys and their texts *)

Lemma ascii_upper_digit (x : N) : ascii_upper (pretty_N_char x) = pretty_N_char x.
Proof. unfold pretty_N_char. repeat case_match; reflexivity. Qed.

Lemma upper_pretty_N_go (x : N) (s : string) :
  upper s = s -> upper (pretty_N_go x s) = pretty_N_go x s.
Proof.
  revert s. induction (N.lt_wf_0 x) as [x _ IH]; intros s Hs.
  destruct (decide (x = 0)%N) as [->|Hx].
  - rewrite pretty_N_go_0. exact Hs.
  - rewrite pretty_N_go_step by lia. apply IH.
    + apply N.div_lt; lia.
    + cbn [upper]. rewrite ascii_upper_digit, Hs. reflexivity.
Qed.

Lemma upper_pretty_N (x : N) : upper (pretty x) = pretty x.
Proof.
  unfold pretty, pretty_N. case_decide; [reflexivity|].
  apply upper_pretty_N_go. reflexivity.
Qed.

(** The decimal text of a key holds no letter, so letter case cannot
    blur two keys. *)
Lemma upper_pretty_Z (z : Z) : upper (pretty z) = pretty z.
Proof.
  destruct z as [|p|p]; [reflexivity| |].
  - apply (upper_pretty_N (Npos p)).
  - change (pretty (Zneg p)) with (String "-" (pretty (Npos p))).
    cbn [upper]. rewrite upper_pretty_N. reflexivity.
Qed.

Lemma iexact_keys (a b : Z) : iexact (pretty a) (pretty b) = (a =? b).
Proof.
  unfold iexact. rewrite !upper_pretty_Z.
  destruct (Z.eqb_spec a b) as [->|Hne].
  - apply String.eqb_refl.
  - apply String.eqb_neq. intros E. apply Hne. exact (pretty_Z_inj _ _ E).
Qed.

Lemma iexact_same_key (a b : Z) (arg : string) :
  iexact (pretty a) arg = true -> iexact (pretty b) arg = true -> a = b.
Proof.
  unfold iexact. rewrite !String.eqb_eq, !upper_pretty_Z.
  intros Ea Eb. apply pretty_Z_inj. congruence.
Qed.

Lemma NoDup_map_filter {A B} (g : A -> B) (f : A -> bool) (l : list A) :
  List.NoDup (map g l) -> List.NoDup (map g (List.filter f l)).
Proof.
  induction l as [|a l IH]; simpl; [auto|].
  intros Hnd. apply NoDup_cons_iff in Hnd as [Hnot Hnd].
  destruct (f a); simpl; [|auto].
  apply NoDup_cons_iff. split; [|auto].
  intros Hin. apply Hnot. apply in_map_iff in Hin as (x & Hx & Hin).
  apply filter_In in Hin as [Hin _]. apply in_map_iff. eauto.
Qed.

Lemma filter_key_unique (rows : list Company) (c : Company) :
  List.NoDup (map pk rows) -> In c rows ->
  List.filter (fun r => pk r =? pk c) rows = [c].
Proof.
  induction rows as [|a rows IH]; simpl; [tauto|].
  intros Hnd Hin. apply NoDup_cons_iff in Hnd as [Hnot Hnd].
  destruct Hin as [->|Hin].
  - rewrite Z.eqb_refl. f_equal. apply filter_none.
    destruct (existsb _ rows) eqn:E; [|reflexivity].
    apply existsb_exists in E as (x & Hx & Hk). exfalso. apply Hnot.
    apply in_map_iff. exists x. split; [lia|exact Hx].
  - destruct (Z.eqb_spec (pk a) (pk c)) as [E|_]; [|auto].
    exfalso. apply Hnot. rewrite E. apply in_map. exact Hin.
Qed.

(** With distinct keys the lookup finds the company of a key under the
    decimal text of that key. *)
Lemma get_by_key_text (w : World) (c : Company) :
  distinct_keys (db w) -> In c (companies (db w)) ->
  objects_get_pk_iexact (pretty (pk c)) w = (Return c, w).
Proof.
  intros Hnd Hin. unfold objects_get_pk_iexact. unfold_monad.
  erewrite filter_ext; [|intros r; apply iexact_keys].
  rewrite (filter_key_unique _ _ Hnd Hin). reflexivity.
Qed.

(** With distinct keys the lookup gives the one matching company or
    [DoesNotExist]; it leaves the world alone. *)
Lemma get_outcomes (arg : string) (w : World) :
  distinct_keys (db w) ->
  (stored arg (db w) = false
   /\ objects_get_pk_iexact arg w = (Raise DoesNotExist, w))
  \/ (exists c, In c (companies (db w))
        /\ iexact (pretty (pk c)) arg = true
        /\ stored arg (db w) = true
        /\ objects_get_pk_iexact arg w = (Return c, w)).
Proof.
  intros Hnd. destruct (stored arg (db w)) eqn:Es.
  - right. unfold stored in Es.
    pose proof (NoDup_map_filter pk (fun c => iexact (pretty (pk c)) arg)
                  _ Hnd) as Hf.
    unfold objects_get_pk_iexact. unfold_monad.
    destruct (List.filter _ (companies (db w))) as [|a [|b rest]] eqn:E.
    + apply existsb_filter_none in E. congruence.
    + assert (Ha : In a (List.filter (fun c => iexact (pretty (pk c)) arg)
                           (companies (db w)))) by (rewrite E; left; reflexivity).
      apply filter_In in Ha as [Ha Hm]. exists a. auto.
    + exfalso.
      assert (Ha : In a (List.filter (fun c => iexact (pretty (pk c)) arg)
                           (companies (db w)))) by (rewrite E; simpl; auto).
      assert (Hb : In b (List.filter (fun c => iexact (pretty (pk c)) arg)
                           (companies (db w)))) by (rewrite E; simpl; auto).
      apply filter_In in Ha as [_ Ha]. apply filter_In in Hb as [_ Hb].
      pose proof (iexact_same_key _ _ _ Ha Hb) as Hk.
      simpl in Hf. apply NoDup_cons_iff in Hf as [Hnot _]. apply Hnot.
      rewrite Hk. left. reflexivity.
  - left. split; [reflexivity|]. apply get_missing. exact Es.
Qed.

(** The lookup never writes. *)
Lemma get_reads_only (arg : string) (w : World) :
  snd (objects_get_pk_iexact arg w) = w.
Proof.
  unfold objects_get_pk_iexact. unfold_monad.
  destruct (List.filter _ _) as [|a [|b rest]]; reflexivity.
Qed.

(** ** Each view, branch by branch *)

Section view_runs.
Context `{Project}.

Lemma lookup_or_404 (arg : string) (w : World) :
  try_except (objects_get_pk_iexact arg) [cls_DoesNotExist] (raise Http404) w
  = match fst (objects_get_pk_iexact arg w) with
    | Return c => (Return c, w)
    | Raise e => (Raise (lookup_exn e), w)
    end.
Proof.
  pose proof (get_reads_only arg w) as Hw. unfold_monad.
  destruct (objects_get_pk_iexact arg w) as [[c|e] w']; cbn [fst snd] in *;
    subst w'; [reflexivity|].
  unfold lookup_exn. cbn [existsb]. rewrite orb_false_r.
  destruct (isinstance e cls_DoesNotExist); reflexivity.
Qed.

Lemma detail_run (request : HttpRequest) (pk_ : string) (slug : option string)
    (template : string) (w : World) :
  company.detail request pk_ slug template w
  = match fst (objects_get_pk_iexact pk_ w) with
    | Return c =>
        (Return (Instance (TemplateResponse template {[ "object" := VObject c ]})), w)
    | Raise e => (Raise (lookup_exn e), w)
    end.
Proof.
  unfold company.detail. unfold mbind, M_bind. rewrite lookup_or_404.
  destruct (fst (objects_get_pk_iexact pk_ w)); reflexivity.
Qed.

Lemma create_run (request : HttpRequest) (template : string) (w : World) :
  has_perm (user request) "contacts.add_company" = true ->
  company.create request template w
  = if String.eqb (method request) "POST" then
      if CompanyCreateForm_is_valid (POST request) (db w) then
        let c := {| pk := next_pk (companies (db w));
                    name := CompanyCreateForm_cleaned_name (POST request) |} in
        (Return (Instance (HttpResponseRedirect (get_absolute_url c))),
         {| db := {| companies := companies (db w) ++ [c];
                     phone_numbers := phone_numbers (db w);
                     email_addresses := email_addresses (db w);
                     web_sites := web_sites (db w);
                     street_addresses := street_addresses (db w) |};
            message_storage := message_storage w ++ [(SUCCESS, "Company added")] |})
      else (Return HttpResponseServerError, w)
    else
      (Return (Instance (TemplateResponse template
          {[ "form" := VCreateForm {| create_data := None |} ]})), w).
Proof.
  intros Hperm. unfold company.create. rewrite Hperm. cbn [negb].
  destruct (String.eqb (method request) "POST"); [|reflexivity].
  unfold create_is_valid, create_save, messages_success. unfold_monad.
  cbn [create_data db message_storage].
  destruct (CompanyCreateForm_is_valid (POST request) (db w)); reflexivity.
Qed.

Lemma update_run (request : HttpRequest) (pk_ : string) (slug : option string)
    (template : string) (w : World) :
  has_perm (user request) "contacts.change_company" = true ->
  company.update request pk_ slug template w
  = match fst (objects_get_pk_iexact pk_ w) with
    | Raise e => (Raise (lookup_exn e), w)
    | Return c =>
        if String.eqb (method request) "POST" then
          match validated_in_sequence (POST request) update_forms c (db w) with
          | Raise e => (Raise e, w)
          | Return (false, c1) =>
              (Return (Instance (TemplateResponse template
                         (update_context (Some (POST request)) c1))), w)
          | Return (true, c1) =>
              match saved_in_sequence (POST request) update_forms c1 (db w) with
              | (Return c2, d2) =>
                  (Return (Instance (HttpResponseRedirect (get_absolute_url c2))),
                   {| db := d2;
                      message_storage :=
                        message_storage w ++ [(SUCCESS, "Company updated")] |})
              | (Raise e, d2) =>
                  (Raise e, {| db := d2; message_storage := message_storage w |})
              end
          end
        else
          (Return (Instance (TemplateResponse template (update_context None c))), w)
    end.
Proof.
  intros Hperm. pose proof (get_reads_only pk_ w) as Hw.
  destruct (objects_get_pk_iexact pk_ w) as [[c|e] w'] eqn:E;
    cbn [fst snd] in *; subst w'.
  - apply (update_found _ _ _ _ _ _ Hperm E).
  - unfold company.update. rewrite Hperm. cbn [negb].
    unfold mbind at 1. unfold M_bind at 1. rewrite lookup_or_404, E. reflexivity.
Qed.

Lemma delete_run (request : HttpRequest) (pk_ : string) (slug : option string)
    (template : string) (w : World) :
  has_perm (user request) "contacts.delete_company" = true ->
  company.delete request pk_ slug template w
  = match fst (objects_get_pk_iexact pk_ w) with
    | Raise e => (Raise (lookup_exn e), w)
    | Return c =>
        if String.eqb (method request) "POST" then
          match getitem (POST request) "delete_company" with
          | Raise e => (Raise e, w)
          | Return item =>
              if item_eq item "Yes" then
                (Return (Instance (HttpResponseRedirect
                           (reverse "contacts_company_list"))),
                 {| db := db (snd (Model_delete c w));
                    message_storage :=
                      message_storage w ++ [(SUCCESS, "Company deleted")] |})
              else
                (Return (Instance (HttpResponseRedirect (get_absolute_url c))), w)
          end
        else
          (Return (Instance (TemplateResponse template {[ "object" := VObject c ]})), w)
    end.
Proof.
  intros Hperm. unfold company.delete. rewrite Hperm. cbn [negb].
  unfold mbind at 1. unfold M_bind at 1. rewrite lookup_or_404.
  destruct (fst (objects_get_pk_iexact pk_ w)) as [c|e]; [|reflexivity].
  destruct (String.eqb (method request) "POST"); [|reflexivity].
  unfold_monad.
  destruct (getitem (POST request) "delete_company") as [item|e]; [|reflexivity].
  destruct (item_eq item "Yes"); reflexivity.
Qed.
End view_runs.

(** ** What the views write, raise and render *)

Section view_facts.
Context `{Project}.

(** X1. Whatever the request, the key and the stored data, when create,
    update or delete returns anything but a redirect (the forbidden
    response, a rendered page, the bare class), the database and the
    message storage are exactly as they were: the only response that
    follows a write is a redirect. *)
Theorem writes_end_in_redirect (request : HttpRequest) (pk_ : string)
    (slug : option string) (template : string) (w : World) (value : returned) :
  is_redirect value = false ->
  (fst (company.create request template w) = Return value ->
   snd (company.create request template w) = w)
  /\ (fst (company.update request pk_ slug template w) = Return value ->
      snd (company.update request pk_ slug template w) = w)
  /\ (fst (company.delete request pk_ slug template w) = Return value ->
      snd (company.delete request pk_ slug template w) = w).
Proof.
  intros Hnot. repeat split.
  - destruct (has_perm (user request) "contacts.add_company") eqn:Hperm.
    + rewrite (create_run _ _ _ Hperm).
      destruct (String.eqb (method request) "POST"); [|reflexivity].
      destruct (CompanyCreateForm_is_valid _ _); [|reflexivity].
      cbn [fst]. intros E. inversion E. subst value. discriminate.
    + unfold company.create. rewrite Hperm. reflexivity.
  - destruct (has_perm (user request) "contacts.change_company") eqn:Hperm.
    + rewrite (update_run _ _ _ _ _ Hperm).
      destruct (fst (objects_get_pk_iexact pk_ w)); [|reflexivity].
      destruct (String.eqb (method request) "POST"); [|reflexivity].
      destruct (validated_in_sequence _ _ _ _) as [[[|] c1]|e]; try reflexivity.
      destruct (saved_in_sequence _ _ _ _) as [[c2|e] d2]; cbn [fst].
      * intros E. inversion E. subst value. discriminate.
      * discriminate.
    + unfold company.update. rewrite Hperm. reflexivity.
  - destruct (has_perm (user request) "contacts.delete_company") eqn:Hperm.
    + rewrite (delete_run _ _ _ _ _ Hperm).
      destruct (fst (objects_get_pk_iexact pk_ w)); [|reflexivity].
      destruct (String.eqb (method request) "POST"); [|reflexivity].
      destruct (getitem _ _) as [item|e]; [|reflexivity].
      destruct (item_eq item "Yes"); [|reflexivity].
      cbn [fst]. intros E. inversion E. subst value. discriminate.
    + unfold company.delete. rewrite Hperm. reflexivity.
Qed.

(** X2. A request whose method is not exactly POST writes nothing: create,
    update and delete leave the database and the message storage as they
    were, with or without permission, for any key and any posted data. *)
Theorem only_post_writes (request : HttpRequest) (pk_ : string)
    (slug : option string) (template : string) (w : World) :
  method request <> "POST" ->
  snd (company.create request template w) = w
  /\ snd (company.update request pk_ slug template w) = w
  /\ snd (company.delete request pk_ slug template w) = w.
Proof.
  intros Hget. apply String.eqb_neq in Hget. repeat split.
  - destruct (has_perm (user request) "contacts.add_company") eqn:Hperm.
    + rewrite (create_run _ _ _ Hperm), Hget. reflexivity.
    + unfold company.create. rewrite Hperm. reflexivity.
  - destruct (has_perm (user request) "contacts.change_company") eqn:Hperm.
    + rewrite (update_run _ _ _ _ _ Hperm), Hget.
      destruct (fst (objects_get_pk_iexact pk_ w)); reflexivity.
    + unfold company.update. rewrite Hperm. reflexivity.
  - destruct (has_perm (user request) "contacts.delete_company") eqn:Hperm.
    + rewrite (delete_run _ _ _ _ _ Hperm), Hget.
      destruct (fst (objects_get_pk_iexact pk_ w)); reflexivity.
    + unfold company.delete. rewrite Hperm. reflexivity.
Qed.

End view_facts.

Lemma demo_distinct_keys : distinct_keys (db demo.world).
Proof.
  unfold distinct_keys. cbn.
  repeat (apply NoDup_cons_iff; split; [cbn; lia|]). apply List.NoDup_nil.
Qed.

Lemma writes_end_in_redirect_witness :
  snd (@company.create demo.project (demo.post demo.staff [("name", [""])])
         "create.html" demo.world)
  = demo.world
  /\ snd (@company.update demo.project
            (demo.post demo.staff
               ([("name", ["Zed"]); ("phone", [""])] ++ demo.management))
            "1" None "update.html" demo.world)
     = demo.world.
Proof.
  pose proof (@writes_end_in_redirect demo.project
                (demo.post demo.staff [("name", [""])]) "1" None "create.html"
                demo.world HttpResponseServerError eq_refl) as (Hc & _).
  pose proof (@writes_end_in_redirect demo.project
                (demo.post demo.staff
                   ([("name", ["Zed"]); ("phone", [""])] ++ demo.management))
                "1" None "update.html" demo.world
                (Instance (TemplateResponse "update.html"
                   (update_context
                      (Some (list_to_map
                               ([("name", ["Zed"]); ("phone", [""])]
                                ++ demo.management)))
                      {| pk := 1; name := "Zed" |}))) eq_refl) as (_ & Hu & _).
  split; [apply Hc | apply Hu]; vm_compute; reflexivity.
Defined.

Lemma only_post_writes_witness :
  snd (@company.create demo.project
         {| user := demo.staff; method := "GET";
            POST := list_to_map [("name", ["Zed"])] |} "create.html" demo.world)
  = demo.world
  /\ snd (@company.delete demo.project
            {| user := demo.staff; method := "post";
               POST := list_to_map [("delete_company", ["Yes"])] |}
            "1" None "delete.html" demo.world)
     = demo.world.
Proof.
  pose proof (@only_post_writes demo.project
                {| user := demo.staff; method := "GET";
                   POST := list_to_map [("name", ["Zed"])] |}
                "1" None "create.html" demo.world ltac:(discriminate))
    as (Hc & _ & _).
  pose proof (@only_post_writes demo.project
                {| user := demo.staff; method := "post";
                   POST := list_to_map [("delete_company", ["Yes"])] |}
                "1" None "delete.html" demo.world ltac:(discriminate))
    as (_ & _ & Hd).
  split; [exact Hc|exact Hd].
Defined.


Section page_facts.
Context `{Project}.

(** X4. With pairwise distinct keys, the detail view asked for the decimal
    text of a stored company's key renders that very company, for any
    user and any slug, and writes nothing. *)
Theorem detail_shows_company_of_key (request : HttpRequest)
    (slug : option string) (template : string) (w : World) (c : Company) :
  distinct_keys (db w) ->
  In c (companies (db w)) ->
  company.detail request (pretty (pk c)) slug template w
  = (Return (Instance (TemplateResponse template {[ "object" := VObject c ]})), w).
Proof.
  intros Hnd Hin. rewrite detail_run, (get_by_key_text w c Hnd Hin). reflexivity.
Qed.

(** X5. For a permitted user and a method other than POST: create renders
    the template with an unbound creation form, whatever is stored; and
    for a stored key, update renders the five forms unbound together with
    the company, and delete renders the confirmation page with the company
    and deletes nothing. *)
Theorem get_renders_pages (request : HttpRequest) (pk_ : string)
    (slug : option string) (template : string) (w : World) :
  method request <> "POST" ->
  (has_perm (user request) "contacts.add_company" = true ->
   company.create request template w
   = (Return (Instance (TemplateResponse template
        {[ "form" := VCreateForm {| create_data := None |} ]})), w))
  /\ (forall c, objects_get_pk_iexact pk_ w = (Return c, w) ->
        (has_perm (user request) "contacts.change_company" = true ->
         company.update request pk_ slug template w
         = (Return (Instance (TemplateResponse template (update_context None c))), w))
        /\ (has_perm (user request) "contacts.delete_company" = true ->
            company.delete request pk_ slug template w
            = (Return (Instance (TemplateResponse template
                 {[ "object" := VObject c ]})), w))).
Proof.
  intros Hget. apply String.eqb_neq in Hget.
  split; [|intros c Hfound; split]; intros Hperm.
  - rewrite (create_run _ _ _ Hperm), Hget. reflexivity.
  - rewrite (update_run _ _ _ _ _ Hperm), Hfound, Hget. reflexivity.
  - rewrite (delete_run _ _ _ _ _ Hperm), Hfound, Hget. reflexivity.
Qed.

(** X6. A POST to the update view by a permitted user for a stored key
    whose posted data let each of the five forms be validated (none
    raises, so the management forms are there) and in which one form is
    found invalid renders the update template again, with all five forms
    bound to the posted data and, as [object], the company instance as the
    validations left it (so with what the main form wrote into it);
    nothing is written to the database or the message storage. *)
Theorem update_invalid_rerenders_bound (request : HttpRequest) (pk_ : string)
    (slug : option string) (template : string) (w : World) (c c1 : Company) :
  has_perm (user request) "contacts.change_company" = true ->
  method request = "POST" ->
  objects_get_pk_iexact pk_ w = (Return c, w) ->
  (forall k c', In k update_forms ->
     exists verdict, form_is_valid k (POST request) c' (db w) = Return verdict) ->
  validated_in_sequence (POST request) update_forms c (db w) = Return (false, c1) ->
  company.update request pk_ slug template w
  = (Return (Instance (TemplateResponse template
       (update_context (Some (POST request)) c1))), w).
Proof.
  intros Hperm Hpost Hfound _ Hbad.
  rewrite (update_run _ _ _ _ _ Hperm), Hfound, Hpost. cbn [fst].
  rewrite String.eqb_refl, Hbad. reflexivity.
Qed.

Lemma saved_in_sequence_app (posted : QueryDict) (done rest : list form_kind)
    (c : Company) (d : Database) :
  saved_in_sequence posted (done ++ rest) c d
  = match saved_in_sequence posted done c d with
    | (Return c', d') => saved_in_sequence posted rest c' d'
    | (Raise e, d') => (Raise e, d')
    end.
Proof.
  revert c d. induction done as [|k done IH]; intros c d; cbn; [reflexivity|].
  destruct (form_save k posted c d) as [[c'|e] d']; [apply IH|reflexivity].
Qed.

(** X12. The five saves of the update view are not undone by a later
    failure.  On a POST by a permitted user for a stored key whose forms
    all validate, when the saves of some of the forms, in order, have gone
    through and the save of the next form raises, the view raises that
    exception: the database stays as the earlier saves and the failing one
    left it, the remaining forms are not saved, no success message is
    recorded and no redirect is returned. *)
Theorem update_save_failure_is_partial (request : HttpRequest) (pk_ : string)
    (slug : option string) (template : string) (w : World) (c c1 c2 : Company)
    (done rest : list form_kind) (k : form_kind) (d2 d3 : Database) (e : exn) :
  has_perm (user request) "contacts.change_company" = true ->
  method request = "POST" ->
  objects_get_pk_iexact pk_ w = (Return c, w) ->
  validated_in_sequence (POST request) update_forms c (db w) = Return (true, c1) ->
  update_forms = (done ++ k :: rest)%list ->
  saved_in_sequence (POST request) done c1 (db w) = (Return c2, d2) ->
  form_save k (POST request) c2 d2 = (Raise e, d3) ->
  company.update request pk_ slug template w
  = (Raise e, {| db := d3; message_storage := message_storage w |}).
Proof.
  intros Hperm Hpost Hfound Hvalid Hsplit Hdone Hfail.
  rewrite (update_run _ _ _ _ _ Hperm), Hfound, Hpost. cbn [fst].
  rewrite String.eqb_refl, Hvalid, Hsplit, saved_in_sequence_app, Hdone.
  cbn [saved_in_sequence]. rewrite Hfail. reflexivity.
Qed.

(** X7. Once a confirmed delete has gone through, the key is gone for the
    later requests: on the world it leaves, detail raises the not-found
    signal for that key, and so do update and a second delete for users
    holding the permission. *)
Theorem deleted_key_is_not_found (request later : HttpRequest) (pk_ : string)
    (slug slug' : option string) (template template' : string) (w : World)
    (c : Company) (values : list string) :
  has_perm (user request) "contacts.delete_company" = true ->
  method request = "POST" ->
  objects_get_pk_iexact pk_ w = (Return c, w) ->
  POST request !! "delete_company" = Some values ->
  last values = Some "Yes" ->
  let w' := snd (company.delete request pk_ slug template w) in
  company.detail later pk_ slug' template' w' = (Raise Http404, w')
  /\ (has_perm (user later) "contacts.change_company" = true ->
      company.update later pk_ slug' template' w' = (Raise Http404, w'))
  /\ (has_perm (user later) "contacts.delete_company" = true ->
      company.delete later pk_ slug' template' w' = (Raise Http404, w')).
Proof.
  intros Hperm Hpost Hfound Hfield Hyes w'.
  assert (Hgone : stored pk_ (db w') = false).
  { subst w'. rewrite (delete_run _ _ _ _ _ Hperm), Hfound, Hpost. cbn [fst].
    rewrite String.eqb_refl.
    destruct (getitem_present _ _ _ Hfield) as (item & -> & Hiff).
    apply Hiff in Hyes. rewrite Hyes. cbn [snd db].
    apply (deleted_not_stored _ _ _ Hfound). }
  pose proof (get_missing pk_ w' Hgone) as Hmiss.
  repeat split.
  - rewrite detail_run, Hmiss. reflexivity.
  - intros Hp. rewrite (update_run _ _ _ _ _ Hp), Hmiss. reflexivity.
  - intros Hp. rewrite (delete_run _ _ _ _ _ Hp), Hmiss. reflexivity.
Qed.
End page_facts.

Lemma detail_shows_company_of_key_witness :
  @company.detail (demo.get demo.visitor) "2" (Some "bolt") "detail.html" demo.world
  = (Return (Instance (TemplateResponse "detail.html"
       {[ "object" := VObject demo.bolt ]})), demo.world).
Proof.
  apply (@detail_shows_company_of_key (demo.get demo.visitor) (Some "bolt")
           "detail.html" demo.world demo.bolt demo_distinct_keys).
  right. left. reflexivity.
Defined.

Lemma get_renders_pages_witness :
  @company.create demo.project (demo.get demo.staff) "create.html"
    {| db := {| companies := []; phone_numbers := []; email_addresses := [];
                web_sites := []; street_addresses := [] |};
       message_storage := [] |}
  = (Return (Instance (TemplateResponse "create.html"
       {[ "form" := VCreateForm {| create_data := None |} ]})),
     {| db := {| companies := []; phone_numbers := []; email_addresses := [];
                 web_sites := []; street_addresses := [] |};
        message_storage := [] |})
  /\ @company.update demo.project (demo.get demo.staff) "1" None "update.html"
       demo.world
     = (Return (Instance (TemplateResponse "update.html"
          (update_context None demo.acme))), demo.world)
  /\ @company.delete demo.project (demo.get demo.staff) "1" None "delete.html"
       demo.world
     = (Return (Instance (TemplateResponse "delete.html"
          {[ "object" := VObject demo.acme ]})), demo.world).
Proof.
  pose proof (@get_renders_pages demo.project (demo.get demo.staff) "1" None
                "create.html"
                {| db := {| companies := []; phone_numbers := [];
                            email_addresses := []; web_sites := [];
                            street_addresses := [] |};
                   message_storage := [] |} ltac:(discriminate))
    as (Hc & _).
  pose proof (@get_renders_pages demo.project (demo.get demo.staff) "1" None
                "update.html" demo.world ltac:(discriminate))
    as (_ & Hu).
  pose proof (@get_renders_pages demo.project (demo.get demo.staff) "1" None
                "delete.html" demo.world ltac:(discriminate))
    as (_ & Hd).
  split; [apply Hc; reflexivity|].
  split.
  - apply (proj1 (Hu demo.acme eq_refl)). reflexivity.
  - apply (proj2 (Hd demo.acme eq_refl)). reflexivity.
Defined.

Lemma update_invalid_rerenders_bound_witness :
  @company.update demo.project
    (demo.post demo.staff
       ([("name", ["Zed"]); ("phone", [""])] ++ demo.management))
    "1" None "update.html" demo.world
  = (Return (Instance (TemplateResponse "update.html"
       (update_context
          (Some (list_to_map ([("name", ["Zed"]); ("phone", [""])] ++ demo.management)))
          {| pk := 1; name := "Zed" |}))), demo.world).
Proof.
  apply (@update_invalid_rerenders_bound demo.project
           (demo.post demo.staff
              ([("name", ["Zed"]); ("phone", [""])] ++ demo.management))
           "1" None "update.html" demo.world demo.acme {| pk := 1; name := "Zed" |});
    try (vm_compute; reflexivity).
  intros k c' _. destruct k; vm_compute; eexists; reflexivity.
Defined.

Lemma update_save_failure_is_partial_witness :
  @company.update demo.flaky
    (demo.post demo.staff
       ([("name", ["Zed"]); ("phone", ["555-0199"]); ("email", ["z@zed.example"]);
         ("website", ["zed.example"]); ("address", ["1 Zed Street"])]
        ++ demo.management))
    "1" None "update.html" demo.world
  = (Raise DatabaseError,
     {| db :=
          {| companies := [{| pk := 1; name := "Zed" |}; demo.bolt];
             phone_numbers :=
               [demo.owned demo.acme "555-0100"; demo.owned demo.acme "555-0199"];
             email_addresses := [];
             web_sites := [];
             street_addresses := [] |};
        message_storage := [] |}).
Proof.
  apply (@update_save_failure_is_partial demo.flaky
           (demo.post demo.staff
              ([("name", ["Zed"]); ("phone", ["555-0199"]);
                ("email", ["z@zed.example"]); ("website", ["zed.example"]);
                ("address", ["1 Zed Street"])] ++ demo.management))
           "1" None "update.html" demo.world demo.acme
           {| pk := 1; name := "Zed" |} {| pk := 1; name := "Zed" |}
           [CompanyUpdateForm; PhoneNumberFormSet]
           [WebSiteFormSet; StreetAddressFormSet] EmailAddressFormSet
           {| companies := [{| pk := 1; name := "Zed" |}; demo.bolt];
              phone_numbers :=
                [demo.owned demo.acme "555-0100"; demo.owned demo.acme "555-0199"];
              email_addresses := [];
              web_sites := [];
              street_addresses := [] |});
    vm_compute; reflexivity.
Defined.

Lemma deleted_key_is_not_found_witness :
  let w' := snd (@company.delete demo.project
                   (demo.post demo.staff [("delete_company", ["Yes"])])
                   "1" None "delete.html" demo.world) in
  @company.detail (demo.get demo.visitor) "1" None "detail.html" w'
  = (Raise Http404, w')
  /\ @company.delete demo.project
       (demo.post demo.staff [("delete_company", ["Yes"])])
       "1" None "delete.html" w'
     = (Raise Http404, w').
Proof.
  intros w'.
  pose proof (@deleted_key_is_not_found demo.project
                (demo.post demo.staff [("delete_company", ["Yes"])])
                (demo.get demo.visitor) "1" None None "delete.html" "detail.html"
                demo.world demo.acme ["Yes"] eq_refl eq_refl eq_refl
                ltac:(vm_compute; reflexivity) eq_refl)
    as (Hd & _ & _).
  pose proof (@deleted_key_is_not_found demo.project
                (demo.post demo.staff [("delete_company", ["Yes"])])
                (demo.post demo.staff [("delete_company", ["Yes"])])
                "1" None None "delete.html" "delete.html"
                demo.world demo.acme ["Yes"] eq_refl eq_refl eq_refl
                ltac:(vm_compute; reflexivity) eq_refl)
    as (_ & _ & Hx).
  split; [exact Hd | apply Hx; reflexivity].
Defined.

(** ** The list view on any page argument *)

Section list_total.
Context `{Project}.

(** Whatever the page argument, the list view answers with the page of
    some number in range. *)
Lemma list_shape (request : HttpRequest) (page_ : page_arg) (template : string)
    (w : World) :
  exists n,
    1 <= n <= num_pages (Paginator_init (companies (db w)) 20)
    /\ company.list request page_ template w
       = (Return (Instance (TemplateResponse template
            (list_context (page_at (companies (db w)) n)
               (if n =? 1 then VNone else VInt (n - 1))
               (if n =? num_pages (Paginator_init (companies (db w)) 20)
                then VNone else VInt (n + 1))))), w).
Proof.
  pose proof (num_pages_bounds (companies (db w))) as [Hone _].
  set (N := num_pages (Paginator_init (companies (db w)) 20)) in *.
  assert (Hlast : company.list request (PageInt N) template w
                  = (Return (Instance (TemplateResponse template
                       (list_context (page_at (companies (db w)) N)
                          (if N =? 1 then VNone else VInt (N - 1))
                          (if N =? N then VNone else VInt (N + 1))))), w)).
  { apply (list_in_range request (PageInt N) template w N eq_refl). fold N. lia. }
  destruct (py_int page_) as [n|e] eqn:E.
  - destruct (decide (1 <= n <= N)) as [Hin|Hout].
    + exists n. split; [exact Hin|]. apply list_in_range; assumption.
    + exists N. split; [lia|]. rewrite <- Hlast.
      eapply list_falls_back.
      * apply (page_out_of_range _ _ n E). fold N. lia.
      * reflexivity.
  - exists N. split; [lia|]. rewrite <- Hlast.
    eapply list_falls_back.
    + apply (page_not_an_integer _ _ _ E).
    + reflexivity.
Qed.

(** X8. For every page argument whatsoever the list view raises nothing
    and writes nothing: it renders the template, and the records it shows
    are one unbroken run of the stored companies, at most twenty of them,
    and at least one whenever any company is stored. *)
Theorem list_always_renders_a_window (request : HttpRequest) (page_ : page_arg)
    (template : string) (w : World) :
  exists context before after,
    company.list request page_ template w
    = (Return (Instance (TemplateResponse template context)), w)
    /\ context !! "object_list"
       = Some (VObjectList (shown (company.list request page_ template w)))
    /\ companies (db w)
       = (before ++ shown (company.list request page_ template w) ++ after)%list
    /\ (length (shown (company.list request page_ template w)) <= 20)%nat
    /\ (companies (db w) <> [] ->
        shown (company.list request page_ template w) <> []).
Proof.
  destruct (list_shape request page_ template w) as (n & Hn & E).
  set (rows := companies (db w)) in *.
  pose proof (num_pages_bounds rows) as [Hone Hlast].
  pose proof (count_init rows) as Hc.
  pose proof (page_at_records rows n Hn) as Hrec.
  set (N := num_pages (Paginator_init rows 20)) in *.
  set (context := list_context (page_at rows n)
                    (if n =? 1 then VNone else VInt (n - 1))
                    (if n =? N then VNone else VInt (n + 1))) in *.
  destruct (list_context_lookup (page_at rows n)
              (if n =? 1 then VNone else VInt (n - 1))
              (if n =? N then VNone else VInt (n + 1))) as (Hl & _).
  fold context in Hl.
  assert (Hshown : shown (company.list request page_ template w)
                   = page_object_list (page_at rows n)).
  { unfold shown. rewrite E. cbn [fst]. rewrite Hl. reflexivity. }
  rewrite Hshown, Hrec.
  set (b := Z.to_nat (20 * (n - 1))).
  set (k := Z.to_nat (Z.min (20 * n) (count (Paginator_init rows 20)) - 20 * (n - 1))).
  exists context, (firstn b rows), (skipn k (skipn b rows)).
  split; [exact E|]. split; [rewrite Hl, Hrec; reflexivity|].
  split; [|split].
  - rewrite firstn_skipn, firstn_skipn. reflexivity.
  - rewrite length_firstn. subst k. lia.
  - intros Hrows Hnil.
    assert (Hlen : length (firstn k (skipn b rows)) = 0%nat) by (rewrite Hnil; reflexivity).
    rewrite length_firstn, length_skipn in Hlen.
    assert (0 < count (Paginator_init rows 20))
      by (destruct rows; [congruence|rewrite Hc; cbn [length]; lia]).
    subst k b. lia.
Qed.

(** X9. For every page argument the flags and the neighbouring numbers in
    the context agree with one another: [has_other_pages] is the
    disjunction of [has_previous] and [has_next] and holds exactly when
    more than twenty companies are stored; [previous_page_number] is a
    number exactly when [has_previous] holds, and [next_page_number]
    exactly when [has_next] holds; otherwise they are null. *)
Theorem list_flags_agree (request : HttpRequest) (page_ : page_arg)
    (template : string) (w : World) :
  exists context n previous next,
    company.list request page_ template w
    = (Return (Instance (TemplateResponse template context)), w)
    /\ context !! "has_previous" = Some (VBool previous)
    /\ context !! "has_next" = Some (VBool next)
    /\ context !! "has_other_pages" = Some (VBool (previous || next))
    /\ previous || next = (20 <? Z.of_nat (length (companies (db w))))
    /\ context !! "previous_page_number"
       = Some (if previous then VInt (n - 1) else VNone)
    /\ context !! "next_page_number"
       = Some (if next then VInt (n + 1) else VNone).
Proof.
  destruct (list_shape request page_ template w) as (n & Hn & E).
  set (rows := companies (db w)) in *.
  pose proof (num_pages_bounds rows) as [Hone Hlast].
  pose proof (count_init rows) as Hc.
  set (N := num_pages (Paginator_init rows 20)) in *.
  destruct (list_context_lookup (page_at rows n)
              (if n =? 1 then VNone else VInt (n - 1))
              (if n =? N then VNone else VInt (n + 1)))
    as (_ & Hnext & Hprev & _ & _ & Hp & Hq).
  assert (Hhp : has_previous (page_at rows n) = (1 <? n)) by reflexivity.
  assert (Hhn : has_next (page_at rows n) = (n <? N)) by reflexivity.
  eexists _, n, (1 <? n), (n <? N).
  split; [exact E|]. rewrite <- Hhp, <- Hhn.
  split; [exact Hprev|]. split; [exact Hnext|].
  split; [|split; [|split]].
  - unfold list_context.
    repeat (rewrite lookup_insert_ne by discriminate).
    apply lookup_insert_eq.
  - rewrite Hhp, Hhn, Hc in *. lia.
  - rewrite Hp, Hhp. f_equal.
    destruct (n =? 1) eqn:E1; [replace (1 <? n) with false by lia
                              |replace (1 <? n) with true by lia]; reflexivity.
  - rewrite Hq, Hhn. f_equal.
    destruct (n =? N) eqn:E1; [replace (n <? N) with false by lia
                              |replace (n <? N) with true by lia]; reflexivity.
Qed.
End list_total.

Lemma pages_up_to (rows : list Company) (k : nat) :
  Z.of_nat k <= num_pages (Paginator_init rows 20) ->
  concat (map (fun n => page_object_list (page_at rows n))
            (map Z.of_nat (seq 1 k)))
  = firstn (Z.to_nat (Z.min (20 * Z.of_nat k) (count (Paginator_init rows 20)))) rows.
Proof.
  pose proof (num_pages_bounds rows) as [Hone Hlast].
  pose proof (count_init rows) as Hc.
  induction k as [|k IH]; intros Hk.
  - cbn [seq map concat]. rewrite Z.min_l by lia. reflexivity.
  - rewrite seq_S, !map_app, concat_app, IH by lia.
    cbn [map concat Nat.add]. rewrite app_nil_r.
    rewrite page_at_records by lia.
    replace (Z.min (20 * Z.of_nat k) (count (Paginator_init rows 20)))
      with (20 * Z.of_nat k) by lia.
    replace (Z.to_nat (20 * (Z.of_nat (S k) - 1))) with (Z.to_nat (20 * Z.of_nat k))
      by lia.
    rewrite take_take_drop. f_equal. lia.
Qed.

Section list_pages.
Context `{Project}.

(** X10. The pages of the list view split the stored companies: the
    records shown for the page numbers [1 .. num_pages], put one after the
    other, are exactly the stored companies in their order, so every
    company is listed on one page and on one page only. *)
Theorem list_pages_partition (request : HttpRequest) (template : string)
    (w : World) :
  concat (map (fun n => shown (company.list request (PageInt n) template w))
            (page_numbers (num_pages (Paginator_init (companies (db w)) 20))))
  = companies (db w).
Proof.
  set (rows := companies (db w)).
  pose proof (num_pages_bounds rows) as [Hone Hlast].
  pose proof (count_init rows) as Hc.
  set (N := num_pages (Paginator_init rows 20)) in *.
  unfold page_numbers.
  rewrite (map_ext_in _ (fun n => page_object_list (page_at rows n))).
  - rewrite pages_up_to by (fold N; lia). fold N.
    rewrite Z.min_r by lia. rewrite Hc, Nat2Z.id. apply firstn_all.
  - intros n Hin. apply in_map_iff in Hin as (i & <- & Hin).
    apply in_seq in Hin.
    unfold shown.
    rewrite (list_in_range request (PageInt (Z.of_nat i)) template w
               (Z.of_nat i) eq_refl) by (fold rows N; lia).
    cbn [fst].
    destruct (list_context_lookup (page_at rows (Z.of_nat i))
                (if Z.of_nat i =? 1 then VNone else VInt (Z.of_nat i - 1))
                (if Z.of_nat i =? N then VNone else VInt (Z.of_nat i + 1)))
      as (Hl & _).
    fold rows N. rewrite Hl. reflexivity.
Qed.
End list_pages.

(** X11. With pairwise distinct keys the detail view has two outcomes
    only, and writes in neither: when no stored company matches the key it
    raises the not-found signal; otherwise it renders the one stored
    company whose key text equals the argument up to letter case, under
    the name [object]. *)
Theorem detail_outcomes (request : HttpRequest) (pk_ : string)
    (slug : option string) (template : string) (w : World) :
  distinct_keys (db w) ->
  (stored pk_ (db w) = false
   /\ company.detail request pk_ slug template w = (Raise Http404, w))
  \/ (exists c,
        In c (companies (db w))
        /\ iexact (pretty (pk c)) pk_ = true
        /\ stored pk_ (db w) = true
        /\ company.detail request pk_ slug template w
           = (Return (Instance (TemplateResponse template
                {[ "object" := VObject c ]})), w)).
Proof.
  intros Hnd. rewrite detail_run.
  destruct (get_outcomes pk_ w Hnd) as [[Hs E]|(c & Hin & Hm & Hs & E)]; rewrite E.
  - left. split; [exact Hs|reflexivity].
  - right. exists c. repeat split; assumption.
Qed.

Lemma detail_outcomes_witness :
  (stored "1" (db demo.world) = false
   /\ @company.detail (demo.post demo.visitor []) "1" None "detail.html" demo.world
      = (Raise Http404, demo.world))
  \/ (exists c,
        In c (companies (db demo.world))
        /\ iexact (pretty (pk c)) "1" = true
        /\ stored "1" (db demo.world) = true
        /\ @company.detail (demo.post demo.visitor []) "1" None "detail.html"
             demo.world
           = (Return (Instance (TemplateResponse "detail.html"
                {[ "object" := VObject c ]})), demo.world)).
Proof.
  exact (@detail_outcomes (demo.post demo.visitor []) "1" None "detail.html"
           demo.world demo_distinct_keys).
Defined.
